(** * pdf-upload-service: the Flask backend [backend/app.py]

    A shallow embedding of the upload gateway and of its configuration
    reporter, followed by the properties of the handler.

    Conventions of the embedding.
    - A Python [str] is a [string]; a character is read as the code point
      of the same number (0..255), so [str.lower] and [str.split] act on
      Latin-1.  Filenames and environment values outside Latin-1 are
      outside the model.
    - A Python [bytes] value is a [list byte].
    - Python integers are [Z].
    - What the handler does not own is a field of [World]: the process
      environment, the multipart request, the random identifier, werkzeug's
      [secure_filename], and boto3 with the store behind it.  The store's
      answers are functions of the call's arguments, so every theorem that
      quantifies over the world covers every behaviour of the store.
    - The handler's body runs in a state-and-exception monad [M]: the state
      is the position of the uploaded file's stream and the chronological
      trace of the calls made on external objects; an exception is any
      instance of Python's [Exception].  Reading [request.files], building
      the client, the put and the signing may raise; [os.getenv], the
      stream's methods, [uuid4] and [secure_filename] return. *)

From Stdlib Require Import Strings.String Strings.Ascii Strings.Byte ZArith NArith List Bool Lia.
From Stdlib Require Import DecimalString Setoid.
Import ListNotations.

Local Open Scope string_scope.
Local Open Scope Z_scope.

(** ** Python strings *)

Module Py.

(** [str(n)] for an integer. *)
Definition str_int (n : Z) : string := NilZero.string_of_int (Z.to_int n).

(** Truthiness of a string, and of [os.getenv]'s result ([None] or a
    string). *)
Definition truthy (s : string) : bool := negb (s =? "")%string.

Definition truthy_opt (o : option string) : bool :=
  match o with
  | Some s => truthy s
  | None => false
  end.

(** [c in s] for a one-character needle. *)
Fixpoint contains (c : ascii) (s : string) : bool :=
  match s with
  | EmptyString => false
  | String d s' => (d =? c)%char || contains c s'
  end.

(** [str.lower] on one character: A-Z, and the Latin-1 capitals
    U+00C0..U+00DE but the multiplication sign U+00D7. *)
Definition lower_char (c : ascii) : ascii :=
  let n := N_of_ascii c in
  if ((65 <=? n) && (n <=? 90) || (192 <=? n) && (n <=? 222) && negb (n =? 215))%N
  then ascii_of_N (n + 32)
  else c.

Fixpoint lower (s : string) : string :=
  match s with
  | EmptyString => EmptyString
  | String c s' => String (lower_char c) (lower s')
  end.

(** [str.isspace] on one character: the separators [str.split()] uses. *)
Definition isspace (c : ascii) : bool :=
  let n := N_of_ascii c in
  ((9 <=? n) && (n <=? 13) || (28 <=? n) && (n <=? 32)
   || (n =? 133) || (n =? 160))%N.

(** [s.rsplit(sep, 1)]: [Some (a, b)] when [sep] occurs, [a] and [b] being
    what lies before and after its last occurrence. *)
Fixpoint rpartition (sep : ascii) (s : string) : option (string * string) :=
  match s with
  | EmptyString => None
  | String c s' =>
      match rpartition sep s' with
      | Some (a, b) => Some (String c a, b)
      | None => if (c =? sep)%char then Some (EmptyString, s') else None
      end
  end.

Definition rsplit1 (sep : ascii) (s : string) : list string :=
  match rpartition sep s with
  | Some (a, b) => [a; b]
  | None => [s]
  end.

(** [s.split()]: the maximal runs of characters that are not whitespace.
    [split_acc] carries the run being read. *)
Fixpoint split_acc (cur : string) (s : string) : list string :=
  match s with
  | EmptyString => if (cur =? "")%string then [] else [cur]
  | String c s' =>
      if isspace c
      then (if (cur =? "")%string then split_acc "" s'
            else cur :: split_acc "" s')
      else split_acc (cur ++ String c "") s'
  end.

Definition split (s : string) : list string := split_acc "" s.

End Py.

(** ** Data model *)

(** A JSON document, as [jsonify] serialises the handler's dictionaries. *)
#[warnings="-register-all"]
Inductive json : Type :=
| JNull
| JBool (b : bool)
| JInt (n : Z)
| JStr (s : string)
| JObj (fields : list (string * json)).

(** What a Flask view returns: the JSON body and the HTTP status. *)
Definition Response : Type := json * Z.

Definition jsonify (fields : list (string * json)) : json := JObj fields.

Fixpoint assoc {A : Type} (k : string) (l : list (string * A)) : option A :=
  match l with
  | [] => None
  | (k', v) :: l' => if (k' =? k)%string then Some v else assoc k l'
  end.

(** The field [k] of a JSON object. *)
Definition field (k : string) (j : json) : option json :=
  match j with
  | JObj fields => assoc k fields
  | _ => None
  end.

Definition has_field (k : string) (j : json) : bool :=
  match field k j with
  | Some _ => true
  | None => false
  end.

(** werkzeug's [FileStorage]: the declared filename ([str] or [None]) and a
    seekable stream of [stream_len] bytes, byte [i] being [stream i]. *)
Record FileStorage : Type := {
  filename : option string;
  stream : N -> byte;
  stream_len : N
}.

(** The bytes of the stream from position [p] on, [k] of them. *)
Definition stream_bytes (f : FileStorage) (p : N) (k : N) : list byte :=
  map (fun i => stream f (p + N.of_nat i)%N) (seq 0 (N.to_nat k)).

(** The instances of [Exception] the handler tells apart, with [str(e)]
    as [msg]; [ClientError] carries [e.response]. *)
Inductive PyExc : Type :=
| NoCredentialsError (msg : string)
| ClientError (response : list (string * list (string * string))) (msg : string)
| Exception (cls : string) (msg : string).

Definition str_exc (e : PyExc) : string :=
  match e with
  | NoCredentialsError msg => msg
  | ClientError _ msg => msg
  | Exception _ msg => msg
  end.

(** The arguments of [boto3.client]. *)
Record ClientCall : Type := {
  service_name : string;
  aws_access_key_id : option string;
  aws_secret_access_key : option string;
  region_name : string
}.

(** The arguments of [upload_fileobj]: the file object (with the position
    its stream is at), the bucket, the key and [ExtraArgs]. *)
Record PutCall : Type := {
  Fileobj : FileStorage;
  Fileobj_pos : N;
  Bucket : string;
  Key : string;
  ContentType : string;
  Metadata : list (string * string)
}.

(** The arguments of [generate_presigned_url]. *)
Record PresignCall : Type := {
  ClientMethod : string;
  Params_Bucket : string;
  Params_Key : string;
  ExpiresIn : Z
}.

(** An S3 client: each operation returns or raises. *)
Record S3Client : Type := {
  upload_fileobj : PutCall -> PyExc + unit;
  generate_presigned_url : PresignCall -> PyExc + string
}.

(** Everything outside the handler. *)
Record World : Type := {
  environ : list (string * string);
  request_files : PyExc + list (string * FileStorage);
  secure_filename : string -> string;
  uuid4 : string;
  boto3_client : ClientCall -> PyExc + S3Client
}.

Inductive Whence : Type := SEEK_SET | SEEK_END.

(** The calls made on external objects, with what they returned. *)
Inductive Event : Type :=
| EvSeek (offset : N) (whence : Whence)
| EvRead (n : N)
| EvTell
| EvPrint (line : string)
| EvUuid4 (id : string)
| EvBoto3Client (c : ClientCall) (raised : option PyExc)
| EvPut (c : PutCall) (r : PyExc + unit)
| EvPresign (c : PresignCall) (r : PyExc + string).

(** ** The state-and-exception monad *)

Record State : Type := {
  pos : N;
  trace : list Event
}.

Definition M (A : Type) : Type := State -> (PyExc + A) * State.

Definition ret {A : Type} (a : A) : M A := fun st => (inr a, st).

Definition raise {A : Type} (e : PyExc) : M A := fun st => (inl e, st).

Definition bind {A B : Type} (m : M A) (k : A -> M B) : M B :=
  fun st =>
    match m st with
    | (inr a, st') => k a st'
    | (inl e, st') => (inl e, st')
    end.

(** [try: m except Exception as e: h e].  An exception raised by the
    handler [h] itself leaves the statement. *)
Definition try_except {A : Type} (m : M A) (h : PyExc -> M A) : M A :=
  fun st =>
    match m st with
    | (inr a, st') => (inr a, st')
    | (inl e, st') => h e st'
    end.

Declare Scope py_scope.
Delimit Scope py_scope with py.
Notation "x <- m ;; k" := (bind m (fun x => k))
  (at level 61, m at next level, right associativity) : py_scope.
Notation "m ;; k" := (bind m (fun _ => k))
  (at level 61, right associativity) : py_scope.
Local Open Scope py_scope.

Definition emit (ev : Event) : M unit :=
  fun st => (inr tt, {| pos := pos st; trace := trace st ++ [ev] |}).

(** Lifting a call that returns or raises. *)
Definition lift {A : Type} (r : PyExc + A) : M A :=
  fun st => (r, st).

Definition print (line : string) : M unit := emit (EvPrint line).

(** [l[i]] and [l[-1]]. *)
Definition list_index {A : Type} (l : list A) (i : nat) : M A :=
  match nth_error l i with
  | Some a => ret a
  | None => raise (Exception "IndexError" "list index out of range")
  end.

Definition list_last {A : Type} (l : list A) : M A :=
  match rev l with
  | a :: _ => ret a
  | [] => raise (Exception "IndexError" "list index out of range")
  end.

(** [d[k]] on a dictionary with string keys. *)
Definition dict_get {A : Type} (d : list (string * A)) (k : string) : M A :=
  match assoc k d with
  | Some a => ret a
  | None => raise (Exception "KeyError" ("'" ++ k ++ "'"))
  end.

(** [os.getenv(k)] and [os.getenv(k, default)]. *)
Definition getenv (w : World) (k : string) : option string :=
  assoc k (environ w).

Definition getenv_default (w : World) (k : string) (default : string) : string :=
  match getenv w k with
  | Some v => v
  | None => default
  end.

(** The file object's methods. *)
Definition file_seek (f : FileStorage) (offset : N) (whence : Whence) : M unit :=
  fun st =>
    let p := match whence with
             | SEEK_SET => offset
             | SEEK_END => (stream_len f + offset)%N
             end in
    (inr tt, {| pos := p; trace := trace st ++ [EvSeek offset whence] |}).

Definition file_read (f : FileStorage) (n : N) : M (list byte) :=
  fun st =>
    let k := N.min n (stream_len f - pos st)%N in
    (inr (stream_bytes f (pos st) k),
     {| pos := (pos st + k)%N; trace := trace st ++ [EvRead n] |}).

Definition file_tell (f : FileStorage) : M Z :=
  fun st =>
    (inr (Z.of_N (pos st)),
     {| pos := pos st; trace := trace st ++ [EvTell] |}).

(** The position of the stream, as the store's client finds it. *)
Definition file_position : M N := fun st => (inr (pos st), st).

(** ** The application *)

Definition MAX_FILE_SIZE : Z := 50 * 1024 * 1024.

Definition ALLOWED_EXTENSIONS : list string := ["pdf"].

Definition pdf_magic : list byte := ["%"; "P"; "D"; "F"]%byte.

Definition in_set (s : string) (l : list string) : bool :=
  existsb (String.eqb s) l.

Definition bytes_eqb (a b : list byte) : bool :=
  if list_eq_dec Byte.byte_eq_dec a b then true else false.

Definition size_limit_message : string :=
  "File size exceeds " ++ Py.str_int (MAX_FILE_SIZE / (1024 * 1024)) ++ "MB limit".

(** [file_too_large]: the handler registered for status 413. *)
Definition file_too_large (error : PyExc) : Response :=
  (jsonify [("error", JStr size_limit_message)], 413).

(** [allowed_file].  [filename] is [None] or a string; ['.' in None] is a
    [TypeError]. *)
Definition allowed_file (filename : option string) : M bool :=
  match filename with
  | None =>
      raise (Exception "TypeError" "argument of type 'NoneType' is not iterable")
  | Some name =>
      if Py.contains "." name
      then
        ext <- list_index (Py.rsplit1 "." name) 1 ;;
        ret (in_set (Py.lower ext) ALLOWED_EXTENSIONS)
      else ret false
  end.

(** [is_pdf_file]. *)
Definition is_pdf_file (file_obj : FileStorage) : M bool :=
  file_seek file_obj 0 SEEK_SET ;;
  header <- file_read file_obj 4 ;;
  file_seek file_obj 0 SEEK_SET ;;
  ret (bytes_eqb header pdf_magic).

(** [get_s3_client]: the client, or [None] when anything in it raised. *)
Definition get_s3_client (w : World) : M (option S3Client) :=
  try_except
    (let aws_region := getenv_default w "AWS_REGION" "us-east-1" in
     aws_region <-
       (if Py.contains "(" aws_region && Py.contains ")" aws_region
        then list_last (Py.split aws_region)
        else ret aws_region) ;;
     let call := {| service_name := "s3";
                    aws_access_key_id := getenv w "AWS_ACCESS_KEY_ID";
                    aws_secret_access_key := getenv w "AWS_SECRET_ACCESS_KEY";
                    region_name := aws_region |} in
     match boto3_client w call with
     | inr s3_client =>
         emit (EvBoto3Client call None) ;;
         ret (Some s3_client)
     | inl e =>
         emit (EvBoto3Client call (Some e)) ;;
         raise e
     end)
    (fun e =>
       print ("Error creating S3 client: " ++ str_exc e) ;;
       ret None).

(** [health_check]. *)
Definition health_check : Response :=
  (jsonify [("status", JStr "healthy");
            ("message", JStr "Flask backend is running")], 200).

Definition error_response (msg : string) (status : Z) : Response :=
  (jsonify [("error", JStr msg)], status).

(** The calls on the client, entered in the trace with their outcome. *)
Definition call_upload_fileobj (c : S3Client) (args : PutCall) : M unit :=
  emit (EvPut args (upload_fileobj c args)) ;;
  lift (upload_fileobj c args).

Definition call_generate_presigned_url (c : S3Client) (args : PresignCall)
  : M string :=
  emit (EvPresign args (generate_presigned_url c args)) ;;
  lift (generate_presigned_url c args).

Definition call_uuid4 (w : World) : M string :=
  emit (EvUuid4 (uuid4 w)) ;;
  ret (uuid4 w).

(** The inner [try] of [upload_file]: the put, the presigned URL and the
    success result, with the three [except] clauses. *)
Definition upload_to_s3 (s3_client : S3Client) (file : FileStorage)
    (bucket_name s3_key original_filename : string) (file_size : Z)
  : M Response :=
  try_except
    (p <- file_position ;;
     call_upload_fileobj s3_client
       {| Fileobj := file;
          Fileobj_pos := p;
          Bucket := bucket_name;
          Key := s3_key;
          ContentType := "application/pdf";
          Metadata := [("original_filename", original_filename);
                       ("file_size", Py.str_int file_size)] |} ;;
     presigned_url <-
       try_except
         (url <- call_generate_presigned_url s3_client
                   {| ClientMethod := "get_object";
                      Params_Bucket := bucket_name;
                      Params_Key := s3_key;
                      ExpiresIn := 3600 |} ;;
          ret (JStr url))
         (fun e =>
            print ("Warning: Could not generate presigned URL: " ++ str_exc e) ;;
            ret JNull) ;;
     ret (jsonify [("message", JStr "File uploaded successfully");
                   ("filename", JStr original_filename);
                   ("s3_key", JStr s3_key);
                   ("presigned_url", presigned_url);
                   ("file_size", JInt file_size)], 200))
    (fun e =>
       match e with
       | NoCredentialsError _ =>
           ret (error_response "AWS credentials not found" 500)
       | ClientError response _ =>
           err <- dict_get response "Error" ;;
           error_code <- dict_get err "Code" ;;
           if (error_code =? "NoSuchBucket")%string
           then ret (error_response "S3 bucket does not exist" 500)
           else ret (error_response ("S3 error: " ++ error_code) 500)
       | Exception _ _ =>
           ret (error_response ("Upload failed: " ++ str_exc e) 500)
       end).

(** The body of the outer [try] of [upload_file]. *)
Definition upload_body (w : World) : M Response :=
  files <- lift (request_files w) ;;
  match assoc "file" files with
  | None => ret (error_response "No file provided" 400)
  | Some file =>
      if match filename file with
         | Some name => (name =? "")%string
         | None => false
         end
      then ret (error_response "No file selected" 400)
      else
        allowed <- allowed_file (filename file) ;;
        if negb allowed
        then ret (error_response "Only PDF files are allowed" 400)
        else
          is_pdf <- is_pdf_file file ;;
          if negb is_pdf
          then ret (error_response "File is not a valid PDF" 400)
          else
            file_seek file 0 SEEK_END ;;
            file_size <- file_tell file ;;
            file_seek file 0 SEEK_SET ;;
            if file_size >? MAX_FILE_SIZE
            then ret (error_response size_limit_message 400)
            else
              match getenv w "AWS_S3_BUCKET" with
              | None => ret (error_response "S3 bucket not configured" 500)
              | Some bucket_name =>
                  if negb (Py.truthy bucket_name)
                  then ret (error_response "S3 bucket not configured" 500)
                  else
                    s3_client <- get_s3_client w ;;
                    match s3_client with
                    | None =>
                        ret (error_response "Failed to initialize S3 client" 500)
                    | Some s3_client =>
                        match filename file with
                        | None => ret (error_response "Invalid filename" 400)
                        | Some name =>
                            if negb (Py.truthy name)
                            then ret (error_response "Invalid filename" 400)
                            else
                              let original_filename := secure_filename w name in
                              id <- call_uuid4 w ;;
                              let unique_filename :=
                                id ++ "_" ++ original_filename in
                              let s3_key := "pdfs/" ++ unique_filename in
                              upload_to_s3 s3_client file bucket_name s3_key
                                original_filename file_size
                        end
                    end
              end
  end.

(** [upload_file]: the route [POST /api/upload]. *)
Definition upload_file (w : World) : M Response :=
  try_except (upload_body w)
    (fun e => ret (error_response ("Server error: " ++ str_exc e) 500)).

Definition initial_state : State := {| pos := 0; trace := [] |}.

(** One request served: the view's outcome and the trace of its calls. *)
Definition serve_upload (w : World) : (PyExc + Response) * list Event :=
  let (r, st) := upload_file w initial_state in (r, trace st).

(** [get_config]: the route [GET /api/config].  [all] runs over the four
    values of [config_status], the region string among them. *)
Definition config_status (w : World) : list (string * json) :=
  [("aws_access_key", JBool (Py.truthy_opt (getenv w "AWS_ACCESS_KEY_ID")));
   ("aws_secret_key", JBool (Py.truthy_opt (getenv w "AWS_SECRET_ACCESS_KEY")));
   ("aws_bucket", JBool (Py.truthy_opt (getenv w "AWS_S3_BUCKET")));
   ("aws_region", JStr (getenv_default w "AWS_REGION" "us-east-1"))].

(** Truthiness of the values [jsonify] can hold. *)
Definition truthy_json (j : json) : bool :=
  match j with
  | JNull => false
  | JBool b => b
  | JInt n => negb (n =? 0)
  | JStr s => Py.truthy s
  | JObj fields => match fields with [] => false | _ => true end
  end.

Definition py_all (values : list json) : bool := forallb truthy_json values.

Definition get_config (w : World) : Response :=
  (jsonify [("configured", JBool (py_all (map snd (config_status w))));
            ("details", JObj (config_status w))], 200).

(** The start-up check of [__main__]: the variables it requires and the
    ones it reports missing. *)
Definition required_vars : list string :=
  ["AWS_ACCESS_KEY_ID"; "AWS_SECRET_ACCESS_KEY"; "AWS_S3_BUCKET"].

Definition missing_vars (w : World) : list string :=
  filter (fun var => negb (Py.truthy_opt (getenv w var))) required_vars.

(** ** Vocabulary of the properties *)

Module Spec.

Import Py.

(** No whitespace in [s]; nothing but whitespace in [s]. *)
Fixpoint no_space (s : string) : bool :=
  match s with
  | EmptyString => true
  | String c s' => negb (isspace c) && no_space s'
  end.

Fixpoint all_space (s : string) : bool :=
  match s with
  | EmptyString => true
  | String c s' => isspace c && all_space s'
  end.

(** [s] is empty or ends with a whitespace character. *)
Definition at_boundary (s : string) : Prop :=
  s = "" \/ exists p c, s = p ++ String c "" /\ isspace c = true.

(** The last token of [split]: a token is a maximal run without
    whitespace, and after the last one only whitespace follows. *)
Definition last_token_of (s tok : string) : Prop :=
  exists pre suf,
    s = pre ++ tok ++ suf /\
    at_boundary pre /\ tok <> "" /\ no_space tok = true /\
    all_space suf = true.

(** The declared name ends in a dot and an extension that lowercases to
    [pdf]: what [allowed_file] accepts, said without [rsplit]. *)
Definition pdf_name (name : string) : Prop :=
  exists base ext,
    name = base ++ String "." ext /\
    contains "." ext = false /\ lower ext = "pdf".

(** [allowed_file] on a string, as a boolean. *)
Definition has_pdf_extension (name : string) : bool :=
  match rpartition "." name with
  | Some (_, ext) => in_set (lower ext) ALLOWED_EXTENSIONS
  | None => false
  end.

(** The first four bytes of the stream (fewer when it is shorter). *)
Definition header_of (f : FileStorage) : list byte :=
  stream_bytes f 0 (N.min 4 (stream_len f)).

(** The region string [get_s3_client] hands to [boto3.client], and the
    whole call. *)
Definition client_region (w : World) : string :=
  let aws_region := getenv_default w "AWS_REGION" "us-east-1" in
  if contains "(" aws_region && contains ")" aws_region
  then last (split aws_region) aws_region
  else aws_region.

Definition client_call (w : World) : ClientCall :=
  {| service_name := "s3";
     aws_access_key_id := getenv w "AWS_ACCESS_KEY_ID";
     aws_secret_access_key := getenv w "AWS_SECRET_ACCESS_KEY";
     region_name := client_region w |}.

(** The calls on the file object up to the size check. *)
Definition sniff_trace : list Event :=
  [EvSeek 0 SEEK_SET; EvRead 4; EvSeek 0 SEEK_SET].

Definition measure_trace : list Event :=
  [EvSeek 0 SEEK_END; EvTell; EvSeek 0 SEEK_SET].

(** The put call of an accepted upload. *)
Definition put_call (w : World) (file : FileStorage) (bucket name : string)
  : PutCall :=
  {| Fileobj := file;
     Fileobj_pos := 0;
     Bucket := bucket;
     Key := "pdfs/" ++ uuid4 w ++ "_" ++ secure_filename w name;
     ContentType := "application/pdf";
     Metadata := [("original_filename", secure_filename w name);
                  ("file_size", str_int (Z.of_N (stream_len file)))] |}.

Definition presign_call (w : World) (bucket name : string) : PresignCall :=
  {| ClientMethod := "get_object";
     Params_Bucket := bucket;
     Params_Key := "pdfs/" ++ uuid4 w ++ "_" ++ secure_filename w name;
     ExpiresIn := 3600 |}.

(** The calls an accepted upload has made when it reaches the put. *)
Definition accepted_trace (w : World) : list Event :=
  sniff_trace ++ measure_trace ++
  [EvBoto3Client (client_call w) None; EvUuid4 (uuid4 w)].

(** The request passes every check before the put: the file part is
    there with a non-empty PDF name, the stream starts with the magic and
    fits the limit, the bucket is configured and the client is built. *)
Definition accepted (w : World) (file : FileStorage) (name bucket : string)
    (client : S3Client) : Prop :=
  (exists files,
      request_files w = inr files /\ assoc "file" files = Some file) /\
  filename file = Some name /\ name <> "" /\ pdf_name name /\
  header_of file = pdf_magic /\
  Z.of_N (stream_len file) <= MAX_FILE_SIZE /\
  getenv w "AWS_S3_BUCKET" = Some bucket /\ bucket <> "" /\
  boto3_client w (client_call w) = inr client.

(** The success result. *)
Definition success_response (original_filename s3_key : string)
    (presigned_url : json) (file_size : Z) : Response :=
  (jsonify [("message", JStr "File uploaded successfully");
            ("filename", JStr original_filename);
            ("s3_key", JStr s3_key);
            ("presigned_url", presigned_url);
            ("file_size", JInt file_size)], 200).

(** A structured result: an error object with status 400 or 500, or the
    success result, whose URL is a string or null. *)
Definition structured (r : Response) : Prop :=
  (exists msg status, r = error_response msg status /\
                      (status = 400 \/ status = 500)) \/
  (exists fn key url size, r = success_response fn key url size /\
                           (url = JNull \/ exists u, url = JStr u)).

(** A successful put is in the trace. *)
Definition put_succeeded (tr : list Event) : Prop :=
  exists args, In (EvPut args (inr tt)) tr.

End Spec.

(** ** Sample worlds *)

Module Samples.

(** A store that accepts every put and signs every URL. *)
Definition ok_client : S3Client :=
  {| upload_fileobj := fun _ => inr tt;
     generate_presigned_url := fun c => inr ("https://s3.test/" ++ Params_Key c) |}.

(** A store that accepts every put and fails to sign. *)
Definition unsigned_client : S3Client :=
  {| upload_fileobj := fun _ => inr tt;
     generate_presigned_url :=
       fun _ => inl (Exception "ValueError" "no signer") |}.

(** A stream that starts with the PDF magic, and one that does not. *)
Definition pdf_stream (i : N) : byte :=
  match i with
  | 0%N => "%" | 1%N => "P" | 2%N => "D" | 3%N => "F" | _ => "000"
  end%byte.

Definition text_stream (i : N) : byte :=
  match i with
  | 0%N => "h" | 1%N => "e" | 2%N => "y" | _ => "!"
  end%byte.

Definition pdf_file (name : string) (len : N) : FileStorage :=
  {| filename := Some name; stream := pdf_stream; stream_len := len |}.

Definition full_env : list (string * string) :=
  [("AWS_ACCESS_KEY_ID", "AKIATEST");
   ("AWS_SECRET_ACCESS_KEY", "secret");
   ("AWS_S3_BUCKET", "bkt");
   ("AWS_REGION", "US East (Ohio) us-east-2")].

Definition world_of (file : FileStorage) (client : S3Client) : World :=
  {| environ := full_env;
     request_files := inr [("file", file)];
     secure_filename := fun s => s;
     uuid4 := "1b4e28ba-2fa1-41d2-883f-0016d3cca427";
     boto3_client := fun _ => inr client |}.

(** The ten-byte upload of [a.pdf]. *)
Definition small_pdf : World := world_of (pdf_file "a.pdf" 10) ok_client.

(** A PDF stream declared as [a.txt]. *)
Definition txt_named : World := world_of (pdf_file "a.txt" 10) ok_client.

(** Text declared as [a.pdf]. *)
Definition spoofed : World :=
  world_of {| filename := Some "a.pdf"; stream := text_stream;
              stream_len := 3 |} ok_client.

(** A PDF one byte over the limit. *)
Definition oversized : World :=
  world_of (pdf_file "big.pdf" 52428801) ok_client.

(** The put succeeds and the signing throws. *)
Definition unsigned : World := world_of (pdf_file "a.pdf" 10) unsigned_client.

(** A name that sanitisation rewrites. *)
Definition spaced_name : World :=
  {| environ := full_env;
     request_files := inr [("file", pdf_file "my file.pdf" 10)];
     secure_filename := fun _ => "my_file.pdf";
     uuid4 := "1b4e28ba-2fa1-41d2-883f-0016d3cca427";
     boto3_client := fun _ => inr ok_client |}.

(** A file part without a filename. *)
Definition nameless : World :=
  world_of {| filename := None; stream := pdf_stream; stream_len := 10 |}
    ok_client.

(** A store without the bucket, and one whose error carries no code. *)
Definition no_bucket_client : S3Client :=
  {| upload_fileobj :=
       fun _ => inl (ClientError [("Error", [("Code", "NoSuchBucket")])]
                       "An error occurred (NoSuchBucket)");
     generate_presigned_url := fun c => inr ("https://s3.test/" ++ Params_Key c) |}.

Definition codeless_client : S3Client :=
  {| upload_fileobj := fun _ => inl (ClientError [] "An error occurred");
     generate_presigned_url := fun c => inr ("https://s3.test/" ++ Params_Key c) |}.

Definition no_bucket : World := world_of (pdf_file "a.pdf" 10) no_bucket_client.

Definition codeless : World := world_of (pdf_file "a.pdf" 10) codeless_client.

(** Reading [request.files] raises. *)
Definition unreadable : World :=
  {| environ := full_env;
     request_files := inl (Exception "BadRequest" "400 Bad Request");
     secure_filename := fun s => s;
     uuid4 := "1b4e28ba-2fa1-41d2-883f-0016d3cca427";
     boto3_client := fun _ => inr ok_client |}.

(** The three required variables set, and [AWS_REGION] set to the empty
    string. *)
Definition empty_region : World :=
  {| environ := [("AWS_ACCESS_KEY_ID", "AKIATEST");
                 ("AWS_SECRET_ACCESS_KEY", "secret");
                 ("AWS_S3_BUCKET", "bkt");
                 ("AWS_REGION", "")];
     request_files := inr [];
     secure_filename := fun s => s;
     uuid4 := "1b4e28ba-2fa1-41d2-883f-0016d3cca427";
     boto3_client := fun _ => inr ok_client |}.

(** No [AWS_REGION]; and a region with a description but no parentheses. *)
Definition no_region : World :=
  {| environ := [("AWS_S3_BUCKET", "bkt")];
     request_files := inr [];
     secure_filename := fun s => s;
     uuid4 := "1b4e28ba-2fa1-41d2-883f-0016d3cca427";
     boto3_client := fun _ => inr ok_client |}.

Definition plain_region : World :=
  {| environ := [("AWS_S3_BUCKET", "bkt"); ("AWS_REGION", "eu-west-1")];
     request_files := inr [];
     secure_filename := fun s => s;
     uuid4 := "1b4e28ba-2fa1-41d2-883f-0016d3cca427";
     boto3_client := fun _ => inr ok_client |}.

End Samples.

(** ** Cross-origin set-up and start-up check *)

(** What the module hands to [CORS]: every origin, or a list. *)
Inductive CorsSetup : Type :=
| CorsAllOrigins
| CorsOrigins (origins : list string).

Definition is_debug (w : World) : bool :=
  (getenv_default w "FLASK_DEBUG" "0" =? "1")%string.

Definition frontend_url (w : World) : option string :=
  getenv w "FRONTEND_URL".

(** [allowed_origins] after the two conditional updates. *)
Definition allowed_origins (w : World) : list string :=
  let allowed_origins := [] in
  let allowed_origins :=
    match frontend_url w with
    | Some url =>
        if Py.truthy url then (allowed_origins ++ [url])%list
        else allowed_origins
    | None => allowed_origins
    end in
  if is_debug w
  then (allowed_origins
        ++ ["http://localhost:3000"; "http://localhost:5000"])%list
  else allowed_origins.

Definition cors_setup (w : World) : CorsSetup :=
  if is_debug w && match allowed_origins w with [] => true | _ => false end
  then CorsAllOrigins
  else CorsOrigins (allowed_origins w).

(** [sep.join(l)]. *)
Fixpoint join (sep : string) (l : list string) : string :=
  match l with
  | [] => ""
  | a :: l' =>
      match l' with
      | [] => a
      | _ => a ++ sep ++ join sep l'
      end
  end.

(** The check of [__main__] before [app.run]: two printed lines when a
    required variable is missing. *)
Definition main_check (w : World) : M unit :=
  let missing_vars := missing_vars w in
  match missing_vars with
  | [] => ret tt
  | _ =>
      print ("Warning: Missing environment variables: "
             ++ join ", " missing_vars) ;;
      print "Set these variables to enable S3 functionality"
  end.

(** ** Outcomes of a request *)

Module Outcomes.

Import Py Spec.

(** The file part is there, with a declared name that is not empty. *)
Definition present (w : World) (file : FileStorage) (name : string) : Prop :=
  (exists files,
      request_files w = inr files /\ assoc "file" files = Some file) /\
  filename file = Some name /\ name <> "".

(** The message answered when the put raises [e]. *)
Inductive put_failure : PyExc -> string -> Prop :=
| FailCredentials msg :
    put_failure (NoCredentialsError msg) "AWS credentials not found"
| FailNoSuchBucket response msg err :
    assoc "Error" response = Some err ->
    assoc "Code" err = Some "NoSuchBucket" ->
    put_failure (ClientError response msg) "S3 bucket does not exist"
| FailStore response msg err code :
    assoc "Error" response = Some err ->
    assoc "Code" err = Some code ->
    code <> "NoSuchBucket" ->
    put_failure (ClientError response msg) ("S3 error: " ++ code)
| FailNoError response msg :
    assoc "Error" response = None ->
    put_failure (ClientError response msg) "Server error: 'Error'"
| FailNoCode response msg err :
    assoc "Error" response = Some err ->
    assoc "Code" err = None ->
    put_failure (ClientError response msg) "Server error: 'Code'"
| FailOther cls msg :
    put_failure (Exception cls msg) ("Upload failed: " ++ msg).

(** The answers of the handler with their traces, one per way through
    it. *)
Inductive Outcome (w : World) : Response -> list Event -> Prop :=
| OutUnreadable e :
    request_files w = inl e ->
    Outcome w (error_response ("Server error: " ++ str_exc e) 500) []
| OutNoFile files :
    request_files w = inr files ->
    assoc "file" files = None ->
    Outcome w (error_response "No file provided" 400) []
| OutNameless files file :
    request_files w = inr files ->
    assoc "file" files = Some file ->
    filename file = None ->
    Outcome w
      (error_response
         "Server error: argument of type 'NoneType' is not iterable" 500) []
| OutNoName files file :
    request_files w = inr files ->
    assoc "file" files = Some file ->
    filename file = Some "" ->
    Outcome w (error_response "No file selected" 400) []
| OutBadType file name :
    present w file name ->
    ~ pdf_name name ->
    Outcome w (error_response "Only PDF files are allowed" 400) []
| OutBadContent file name :
    present w file name ->
    pdf_name name ->
    header_of file <> pdf_magic ->
    Outcome w (error_response "File is not a valid PDF" 400) sniff_trace
| OutTooLarge file name :
    present w file name ->
    pdf_name name ->
    header_of file = pdf_magic ->
    Z.of_N (stream_len file) > MAX_FILE_SIZE ->
    Outcome w (error_response "File size exceeds 50MB limit" 400)
      (sniff_trace ++ measure_trace)%list
| OutNoBucket file name :
    present w file name ->
    pdf_name name ->
    header_of file = pdf_magic ->
    Z.of_N (stream_len file) <= MAX_FILE_SIZE ->
    truthy_opt (getenv w "AWS_S3_BUCKET") = false ->
    Outcome w (error_response "S3 bucket not configured" 500)
      (sniff_trace ++ measure_trace)%list
| OutNoClient file name bucket e :
    present w file name ->
    pdf_name name ->
    header_of file = pdf_magic ->
    Z.of_N (stream_len file) <= MAX_FILE_SIZE ->
    getenv w "AWS_S3_BUCKET" = Some bucket ->
    bucket <> "" ->
    boto3_client w (client_call w) = inl e ->
    Outcome w (error_response "Failed to initialize S3 client" 500)
      (sniff_trace ++ measure_trace ++
       [EvBoto3Client (client_call w) (Some e);
        EvPrint ("Error creating S3 client: " ++ str_exc e)])%list
| OutPutFailed file name bucket client e msg :
    accepted w file name bucket client ->
    upload_fileobj client (put_call w file bucket name) = inl e ->
    put_failure e msg ->
    Outcome w (error_response msg 500)
      (accepted_trace w
       ++ [EvPut (put_call w file bucket name) (inl e)])%list
| OutUploaded file name bucket client url :
    accepted w file name bucket client ->
    upload_fileobj client (put_call w file bucket name) = inr tt ->
    generate_presigned_url client (presign_call w bucket name) = inr url ->
    Outcome w
      (success_response (secure_filename w name)
         (Key (put_call w file bucket name)) (JStr url)
         (Z.of_N (stream_len file)))
      (accepted_trace w ++
       [EvPut (put_call w file bucket name) (inr tt);
        EvPresign (presign_call w bucket name) (inr url)])%list
| OutUnsigned file name bucket client e :
    accepted w file name bucket client ->
    upload_fileobj client (put_call w file bucket name) = inr tt ->
    generate_presigned_url client (presign_call w bucket name) = inl e ->
    Outcome w
      (success_response (secure_filename w name)
         (Key (put_call w file bucket name)) JNull
         (Z.of_N (stream_len file)))
      (accepted_trace w ++
       [EvPut (put_call w file bucket name) (inr tt);
        EvPresign (presign_call w bucket name) (inl e);
        EvPrint ("Warning: Could not generate presigned URL: "
                 ++ str_exc e)])%list.

(** The kinds of call in a trace. *)
Definition is_file_op (ev : Event) : bool :=
  match ev with
  | EvSeek _ _ | EvRead _ | EvTell => true
  | _ => false
  end.

Definition is_client (ev : Event) : bool :=
  match ev with EvBoto3Client _ _ => true | _ => false end.

Definition is_uuid (ev : Event) : bool :=
  match ev with EvUuid4 _ => true | _ => false end.

Definition is_put (ev : Event) : bool :=
  match ev with EvPut _ _ => true | _ => false end.

Definition is_presign (ev : Event) : bool :=
  match ev with EvPresign _ _ => true | _ => false end.

Definition count (p : Event -> bool) (tr : list Event) : nat :=
  length (filter p tr).

(** The eight spellings of the extension. *)
Definition pdf_spellings : list string :=
  ["pdf"; "pdF"; "pDf"; "pDF"; "Pdf"; "PdF"; "PDf"; "PDF"].

End Outcomes.

(** Requests for the further properties. *)
Module MoreSamples.

Import Samples.

Definition dev_env : World :=
  {| environ := [("FLASK_DEBUG", "1")];
     request_files := inr [];
     secure_filename := fun s => s;
     uuid4 := "1b4e28ba-2fa1-41d2-883f-0016d3cca427";
     boto3_client := fun _ => inr ok_client |}.

Definition prod_env : World :=
  {| environ := [("FRONTEND_URL", "https://app.test");
                 ("AWS_S3_BUCKET", "")];
     request_files := inr [("file", pdf_file "a.pdf" 10)];
     secure_filename := fun s => s;
     uuid4 := "1b4e28ba-2fa1-41d2-883f-0016d3cca427";
     boto3_client := fun _ => inr ok_client |}.

(** No file part; a file part with an empty name. *)
Definition empty_form : World :=
  {| environ := full_env;
     request_files := inr [];
     secure_filename := fun s => s;
     uuid4 := "1b4e28ba-2fa1-41d2-883f-0016d3cca427";
     boto3_client := fun _ => inr ok_client |}.

Definition unselected : World := world_of (pdf_file "" 0) ok_client.

(** A PDF of exactly the limit. *)
Definition at_limit : World := world_of (pdf_file "max.pdf" 52428800) ok_client.

(** [boto3.client] raises. *)
Definition no_client : World :=
  {| environ := full_env;
     request_files := inr [("file", pdf_file "a.pdf" 10)];
     secure_filename := fun s => s;
     uuid4 := "1b4e28ba-2fa1-41d2-883f-0016d3cca427";
     boto3_client :=
       fun _ => inl (Exception "InvalidRegionError" "bad region") |}.

(** A store that denies access. *)
Definition denied_client : S3Client :=
  {| upload_fileobj :=
       fun _ => inl (ClientError [("Error", [("Code", "AccessDenied")])]
                       "An error occurred (AccessDenied)");
     generate_presigned_url := fun c => inr ("https://s3.test/" ++ Params_Key c) |}.

Definition denied : World := world_of (pdf_file "a.pdf" 10) denied_client.

(** A region with a description and no parentheses, and one whose
    parenthesised description follows the code. *)
Definition described_region : World :=
  {| environ := [("AWS_S3_BUCKET", "bkt");
                 ("AWS_REGION", "US East Ohio us-east-2")];
     request_files := inr [];
     secure_filename := fun s => s;
     uuid4 := "1b4e28ba-2fa1-41d2-883f-0016d3cca427";
     boto3_client := fun _ => inr ok_client |}.

Definition trailing_description : World :=
  {| environ := [("AWS_S3_BUCKET", "bkt");
                 ("AWS_REGION", "us-east-2 (Ohio)")];
     request_files := inr [];
     secure_filename := fun s => s;
     uuid4 := "1b4e28ba-2fa1-41d2-883f-0016d3cca427";
     boto3_client := fun _ => inr ok_client |}.

(** The same upload under another identifier. *)
Definition small_pdf_again : World :=
  {| environ := full_env;
     request_files := inr [("file", pdf_file "a.pdf" 10)];
     secure_filename := fun s => s;
     uuid4 := "9f8b6c1e-0d2a-4c57-9e41-7a3b5d6f8c90";
     boto3_client := fun _ => inr ok_client |}.

End MoreSamples.

(** * Properties *)

(** ** Strings *)

Module PyFacts.

Import Py Spec.

Lemma append_nil_r (s : string) : s ++ "" = s.
Proof. induction s as [|c s IH]; simpl; [reflexivity | now rewrite IH]. Qed.

Lemma append_assoc (a b c : string) : (a ++ b) ++ c = a ++ (b ++ c).
Proof. induction a as [|x a IH]; simpl; [reflexivity | now rewrite IH]. Qed.

Lemma append_eq_nil (a b : string) : a ++ b = "" -> a = "" /\ b = "".
Proof. destruct a; simpl; [auto | discriminate]. Qed.

Lemma contains_append (c : ascii) (a b : string) :
  contains c (a ++ b) = contains c a || contains c b.
Proof.
  induction a as [|x a IH]; simpl; [reflexivity |].
  now rewrite IH, orb_assoc.
Qed.

(** [rpartition] finds no separator exactly when there is none. *)
Lemma rpartition_None (sep : ascii) (s : string) :
  rpartition sep s = None <-> contains sep s = false.
Proof.
  induction s as [|c s IH]; simpl; [tauto |].
  destruct (rpartition sep s) as [[a b]|].
  - split; [discriminate |].
    intros H. apply orb_false_elim in H as [_ H].
    apply IH in H. discriminate.
  - destruct (Ascii.eqb_spec c sep); simpl.
    + split; discriminate.
    + split; [intros _; now apply IH | reflexivity].
Qed.

(** What [rpartition] returns lies around the last separator. *)
Lemma rpartition_Some (sep : ascii) (s a b : string) :
  rpartition sep s = Some (a, b) <->
  s = a ++ String sep b /\ contains sep b = false.
Proof.
  revert a b. induction s as [|c s IH]; intros a b; simpl.
  - split; [discriminate |]. intros [H _]. destruct a; discriminate.
  - destruct (rpartition sep s) as [[a' b']|] eqn:E.
    + destruct (proj1 (IH a' b') eq_refl) as [Hs Hb'].
      split.
      * intros H. injection H as <- <-. simpl. now rewrite <- Hs.
      * intros [H Hb]. destruct a as [|x a]; simpl in H.
        -- injection H as -> ->.
           rewrite Hs, contains_append in Hb. simpl in Hb.
           rewrite Ascii.eqb_refl, orb_true_r in Hb. discriminate.
        -- injection H as -> H.
           assert (Hr : Some (a', b') = Some (a, b))
             by (apply IH; auto).
           now injection Hr as -> ->.
    + apply rpartition_None in E.
      destruct (Ascii.eqb_spec c sep) as [->|Hne].
      * split.
        -- intros H. injection H as <- <-. auto.
        -- intros [H Hb]. destruct a as [|x a]; simpl in H.
           ++ now injection H as <-.
           ++ injection H as -> ->.
              rewrite contains_append in E. simpl in E.
              rewrite Ascii.eqb_refl, orb_true_r in E. discriminate.
      * split; [discriminate |].
        intros [H Hb]. destruct a as [|x a]; simpl in H.
        -- now injection H as ->.
        -- injection H as -> ->.
           rewrite contains_append in E. simpl in E.
           rewrite Ascii.eqb_refl, orb_true_r in E. discriminate.
Qed.

Lemma no_space_append (a b : string) :
  no_space (a ++ b) = no_space a && no_space b.
Proof.
  induction a as [|x a IH]; simpl; [reflexivity |].
  now rewrite IH, andb_assoc.
Qed.

Lemma at_boundary_cons (c : ascii) (s : string) :
  isspace c = true -> at_boundary s -> at_boundary (String c s).
Proof.
  intros Hc [->|(p & d & -> & Hd)]; right.
  - now exists "", c.
  - now exists (String c p), d.
Qed.

Lemma at_boundary_append (a s : string) :
  at_boundary s -> s <> "" -> at_boundary (a ++ s).
Proof.
  intros [->|(p & d & -> & Hd)] Hne; [congruence |].
  right. exists (a ++ p), d. now rewrite append_assoc.
Qed.

Lemma split_acc_last (s cur : string) :
  no_space cur = true ->
  (split_acc cur s = [] /\ cur = "" /\ all_space s = true) \/
  (exists front tok,
      split_acc cur s = (front ++ [tok])%list /\ last_token_of (cur ++ s) tok).
Proof.
  revert cur. induction s as [|c s IH]; intros cur Hcur; simpl.
  - destruct (String.eqb_spec cur "") as [->|Hne]; [left; auto |].
    right. exists [], cur. split; [reflexivity |].
    exists "", "". simpl. rewrite !append_nil_r.
    repeat split; auto. now left.
  - destruct (isspace c) eqn:Hc.
    + destruct (IH "" eq_refl) as [(Hs & _ & Hall)|(front & tok & Hs & Hlast)].
      * destruct (String.eqb_spec cur "") as [->|Hne].
        -- left. auto.
        -- right. exists [], cur. rewrite Hs. split; [reflexivity |].
           exists "", (String c s). simpl. rewrite Hc.
           repeat split; auto. now left.
      * assert (Hlast' : last_token_of (cur ++ String c s) tok).
        { destruct Hlast as (pre & suf & Heq & Hpre & Hne & Hns & Hsuf).
          simpl in Heq. exists (cur ++ String c pre), suf.
          rewrite append_assoc. simpl. rewrite <- Heq.
          repeat split; auto.
          apply at_boundary_append; [| discriminate].
          now apply at_boundary_cons. }
        right. destruct (String.eqb_spec cur "") as [->|Hne].
        -- exists front, tok. now rewrite Hs.
        -- exists (cur :: front), tok. now rewrite Hs.
    + assert (Hcur' : no_space (cur ++ String c "") = true).
      { rewrite no_space_append, Hcur. simpl. now rewrite Hc. }
      destruct (IH _ Hcur') as [(_ & Hnil & _)|(front & tok & Hs & Hlast)].
      * apply append_eq_nil in Hnil as [_ Hnil]. discriminate.
      * right. exists front, tok. split; [exact Hs |].
        rewrite append_assoc in Hlast. exact Hlast.
Qed.

Lemma all_space_contains (c : ascii) (s : string) :
  isspace c = false -> contains c s = true -> all_space s = false.
Proof.
  intros Hc. induction s as [|d s IH]; simpl; [discriminate |].
  destruct (Ascii.eqb_spec d c) as [->|_]; simpl.
  - now rewrite Hc.
  - intros H. rewrite (IH H). apply andb_false_r.
Qed.

(** A string that holds a character other than whitespace has a last
    token, and [split] ends with it. *)
Lemma split_last (c : ascii) (s : string) :
  isspace c = false -> contains c s = true ->
  exists front tok, split s = (front ++ [tok])%list /\ last_token_of s tok.
Proof.
  intros Hc Hs. unfold split.
  destruct (split_acc_last s "" eq_refl) as [(_ & _ & Hall)|H]; [| exact H].
  rewrite (all_space_contains c s Hc Hs) in Hall. discriminate.
Qed.

(** Conversely, [split] ends with any last token. *)
Lemma split_acc_all_space (s : string) :
  all_space s = true -> split_acc "" s = [].
Proof.
  induction s as [|c s IH]; simpl; [reflexivity |].
  intros H. apply andb_prop in H as [-> H]. auto.
Qed.

Lemma split_acc_token (tok suf cur : string) :
  no_space tok = true -> all_space suf = true -> cur ++ tok <> "" ->
  split_acc cur (tok ++ suf) = [cur ++ tok].
Proof.
  revert cur. induction tok as [|c tok IH]; intros cur Htok Hsuf Hne; simpl.
  - rewrite append_nil_r in *.
    destruct suf as [|d suf]; simpl.
    + now destruct (String.eqb_spec cur "").
    + simpl in Hsuf. apply andb_prop in Hsuf as [-> Hsuf].
      rewrite (split_acc_all_space _ Hsuf).
      now destruct (String.eqb_spec cur "").
  - simpl in Htok. apply andb_prop in Htok as [Hc Htok].
    apply negb_true_iff in Hc. rewrite Hc.
    rewrite IH; auto.
    + now rewrite append_assoc.
    + rewrite append_assoc. simpl. intros H.
      apply append_eq_nil in H as [_ H]. discriminate.
Qed.

Lemma split_acc_boundary (p : string) (d : ascii) (rest cur : string) :
  isspace d = true ->
  exists front,
    split_acc cur ((p ++ String d "") ++ rest)
    = (front ++ split_acc "" rest)%list.
Proof.
  intros Hd. revert cur. induction p as [|x p IH]; intros cur; simpl.
  - rewrite Hd. destruct (cur =? "")%string; [now exists [] | now exists [cur]].
  - destruct (isspace x).
    + destruct (IH "") as [front Hf]. rewrite Hf.
      destruct (cur =? "")%string; [now exists front | now exists (cur :: front)].
    + apply IH.
Qed.

Lemma split_of_last_token (s tok : string) :
  last_token_of s tok -> exists front, split s = (front ++ [tok])%list.
Proof.
  intros (pre & suf & -> & Hpre & Hne & Hns & Hsuf). unfold split.
  destruct Hpre as [->|(p & d & -> & Hd)].
  - exists []. simpl. now rewrite split_acc_token.
  - destruct (split_acc_boundary p d (tok ++ suf) "" Hd) as [front Hf].
    exists front. rewrite Hf. now rewrite split_acc_token.
Qed.

(** The last token is unique. *)
Lemma last_token_unique (s t1 t2 : string) :
  last_token_of s t1 -> last_token_of s t2 -> t1 = t2.
Proof.
  intros H1 H2.
  apply split_of_last_token in H1 as [f1 E1], H2 as [f2 E2].
  rewrite E1 in E2. now apply app_inj_tail in E2.
Qed.

End PyFacts.

(** ** The parts of the handler *)

Section Components.

Import Py Spec.

Lemma has_pdf_extension_iff (name : string) :
  has_pdf_extension name = true <-> pdf_name name.
Proof.
  unfold has_pdf_extension, pdf_name. split.
  - destruct (rpartition "." name) as [[a b]|] eqn:R; [| discriminate].
    apply PyFacts.rpartition_Some in R as [-> Hb].
    cbn. rewrite orb_false_r. intros H. apply String.eqb_eq in H.
    exists a, b. auto.
  - intros (base & ext & -> & Hdot & Hlow).
    assert (R : rpartition "." (base ++ String "." ext) = Some (base, ext))
      by (apply PyFacts.rpartition_Some; auto).
    rewrite R. cbn. now rewrite Hlow.
Qed.

(** On a string, [allowed_file] returns and never raises: the index [1]
    is taken only when the name holds a dot. *)
Lemma allowed_file_Some (name : string) (st : State) :
  allowed_file (Some name) st = (inr (has_pdf_extension name), st).
Proof.
  unfold allowed_file, has_pdf_extension, rsplit1.
  destruct (contains "." name) eqn:E.
  - destruct (rpartition "." name) as [[a b]|] eqn:R.
    + reflexivity.
    + apply PyFacts.rpartition_None in R. congruence.
  - apply PyFacts.rpartition_None in E. now rewrite E.
Qed.

(** [is_pdf_file] compares the header and leaves the stream at 0. *)
Lemma is_pdf_file_run (f : FileStorage) (st : State) :
  is_pdf_file f st =
  (inr (bytes_eqb (header_of f) pdf_magic),
   {| pos := 0; trace := trace st ++ sniff_trace |}).
Proof.
  unfold is_pdf_file, header_of, sniff_trace, bind, ret, file_seek, file_read.
  cbn [pos trace]. rewrite N.sub_0_r, <- !app_assoc. reflexivity.
Qed.

Lemma bytes_eqb_eq (a b : list byte) : bytes_eqb a b = true <-> a = b.
Proof.
  unfold bytes_eqb. destruct (list_eq_dec byte_eq_dec a b); split;
    auto; discriminate.
Qed.

(** [split()[-1]] on a region with a parenthesis returns the last token. *)
Lemma region_last_token (r : string) (st : State) :
  contains "(" r = true ->
  list_last (split r) st = (inr (last (split r) r), st) /\
  last_token_of r (last (split r) r).
Proof.
  intros H.
  destruct (PyFacts.split_last "(" r eq_refl H) as (front & tok & E & Htok).
  unfold list_last. rewrite E, rev_app_distr, last_last. simpl. auto.
Qed.

(** [get_s3_client] makes one call to [boto3.client], with the region of
    [client_region]; when the call raises, it prints and returns [None]. *)
Lemma get_s3_client_run (w : World) (st : State) :
  get_s3_client w st =
  match boto3_client w (client_call w) with
  | inr c =>
      (inr (Some c),
       {| pos := pos st;
          trace := trace st ++ [EvBoto3Client (client_call w) None] |})
  | inl e =>
      (inr None,
       {| pos := pos st;
          trace := trace st ++
                   [EvBoto3Client (client_call w) (Some e);
                    EvPrint ("Error creating S3 client: " ++ str_exc e)] |})
  end.
Proof.
  unfold get_s3_client, client_call, client_region, try_except, bind.
  set (r := getenv_default w "AWS_REGION" "us-east-1").
  destruct (contains "(" r) eqn:Hopen; cbn [andb].
  - destruct (contains ")" r).
    + rewrite (proj1 (region_last_token r st Hopen)).
      destruct (boto3_client w _); cbn; [rewrite <- app_assoc |]; reflexivity.
    + cbn. destruct (boto3_client w _); cbn; [rewrite <- app_assoc |];
        reflexivity.
  - cbn. destruct (boto3_client w _); cbn; [rewrite <- app_assoc |];
      reflexivity.
Qed.

End Components.

(** ** The handler, case by case *)

Ltac unfold_handler :=
  cbv [serve_upload upload_file upload_body try_except bind ret raise lift
       initial_state].

Ltac flatten_trace :=
  cbv [file_seek file_tell call_uuid4 emit print bind ret];
  cbn [pos trace app Spec.sniff_trace Spec.measure_trace Spec.accepted_trace].

(** No put succeeded in an explicit trace. *)
Ltac no_put :=
  let args := fresh "args" in
  let Hin := fresh "Hin" in
  intros [args Hin];
  cbn [In app pos trace Spec.sniff_trace Spec.measure_trace
       Spec.accepted_trace] in Hin;
  intuition (try discriminate; try congruence).

Ltac rejected msg status :=
  left; exists msg, status; eexists;
  split; [reflexivity | split; [auto | split; [cbn; discriminate | no_put]]].

Section Cases.

Import Py Spec.

Lemma serve_upload_cases (w : World) :
  (exists msg status tr,
      serve_upload w = (inr (error_response msg status), tr) /\
      (status = 400 \/ status = 500) /\
      msg <> "Invalid filename" /\
      ~ put_succeeded tr) \/
  (exists file name bucket client url warning res,
      accepted w file name bucket client /\
      upload_fileobj client (put_call w file bucket name) = inr tt /\
      generate_presigned_url client (presign_call w bucket name) = res /\
      match res with
      | inr u => url = JStr u /\ warning = []
      | inl e =>
          url = JNull /\
          warning = [EvPrint ("Warning: Could not generate presigned URL: "
                              ++ str_exc e)]
      end /\
      serve_upload w =
      (inr (success_response (secure_filename w name)
              (Key (put_call w file bucket name)) url
              (Z.of_N (stream_len file))),
       (accepted_trace w ++
        [EvPut (put_call w file bucket name) (inr tt);
         EvPresign (presign_call w bucket name) res] ++ warning)%list)).
Proof.
  unfold_handler.
  destruct (request_files w) as [e|files] eqn:Hfiles.
  { rejected ("Server error: " ++ str_exc e) 500. }
  destruct (assoc "file" files) as [file|] eqn:Hfile.
  2: { rejected "No file provided" 400. }
  destruct (filename file) as [name|] eqn:Hname.
  2: { cbn.
       rejected ("Server error: argument of type 'NoneType' is not iterable")
                500. }
  destruct (String.eqb_spec name "") as [->|Hne].
  { rejected "No file selected" 400. }
  rewrite allowed_file_Some.
  destruct (has_pdf_extension name) eqn:Hext; cbn [negb].
  2: { rejected "Only PDF files are allowed" 400. }
  rewrite is_pdf_file_run.
  destruct (bytes_eqb (header_of file) pdf_magic) eqn:Hmagic; cbn [negb].
  2: { rejected "File is not a valid PDF" 400. }
  flatten_trace. rewrite N.add_0_r.
  destruct (Z.gtb_spec (Z.of_N (stream_len file)) MAX_FILE_SIZE) as [Hgt|Hsize].
  { rejected size_limit_message 400. }
  destruct (getenv w "AWS_S3_BUCKET") as [bucket|] eqn:Hbucket.
  2: { rejected "S3 bucket not configured" 500. }
  unfold truthy.
  destruct (String.eqb_spec bucket "") as [->|Hbne]; cbn [negb].
  { rejected "S3 bucket not configured" 500. }
  rewrite get_s3_client_run.
  destruct (boto3_client w (client_call w)) as [e|client] eqn:Hclient.
  { flatten_trace. rejected "Failed to initialize S3 client" 500. }
  destruct (String.eqb_spec name "") as [->|_]; [congruence |]; cbn [negb].
  flatten_trace.
  assert (Hacc : accepted w file name bucket client).
  { unfold accepted. repeat split; eauto.
    - now apply has_pdf_extension_iff.
    - now apply bytes_eqb_eq. }
  cbv [upload_to_s3 try_except bind ret file_position call_upload_fileobj
       call_generate_presigned_url emit lift print].
  cbn [pos trace app].
  match goal with
  | |- context [upload_fileobj client ?a] =>
      change a with (put_call w file bucket name)
  end.
  match goal with
  | |- context [generate_presigned_url client ?a] =>
      change a with (presign_call w bucket name)
  end.
  destruct (upload_fileobj client (put_call w file bucket name))
    as [e|[]] eqn:Hput.
  - destruct e as [msg|response msg|cls msg].
    + rejected "AWS credentials not found" 500.
    + cbv [dict_get bind ret raise].
      destruct (assoc "Error" response) as [err|].
      * destruct (assoc "Code" err) as [error_code|].
        -- destruct (error_code =? "NoSuchBucket")%string.
           ++ rejected "S3 bucket does not exist" 500.
           ++ rejected ("S3 error: " ++ error_code) 500.
        -- rejected "Server error: 'Code'" 500.
      * rejected "Server error: 'Error'" 500.
    + rejected ("Upload failed: " ++ msg) 500.
  - right. exists file, name, bucket, client.
    destruct (generate_presigned_url client (presign_call w bucket name))
      as [e|url] eqn:Hsign.
    + exists JNull. eexists. exists (inl e).
      split; [exact Hacc |]. do 3 (split; [eauto |]). reflexivity.
    + exists (JStr url), [], (inr url).
      split; [exact Hacc |]. do 3 (split; [eauto |]). reflexivity.
Qed.
End Cases.

(** ** The validation pipeline *)

Section Request.

Import Py Spec.

Variables (w : World) (files : list (string * FileStorage))
          (file : FileStorage) (name : string).

(** The file part is present and its declared filename is not empty. *)
Hypothesis Hfiles : request_files w = inr files.
Hypothesis Hfile : assoc "file" files = Some file.
Hypothesis Hname : filename file = Some name.
Hypothesis Hnonempty : name <> "".

(** C5. A request with a file part whose declared filename is not empty
    and either holds no dot or has, after its last dot, a suffix that does
    not lowercase to [pdf], is answered with status 400 and
    [Only PDF files are allowed]; the trace is empty, so the stream was
    not read: the answer does not depend on the content. *)
Theorem unsupported_type_C5 :
  contains "." name = false \/
  (exists base ext,
      name = base ++ String "." ext /\
      contains "." ext = false /\ lower ext <> "pdf") ->
  serve_upload w = (inr (error_response "Only PDF files are allowed" 400), []).
Proof.
  intros Hbad.
  assert (Hext : has_pdf_extension name = false).
  { unfold has_pdf_extension. destruct Hbad as [Hdot|(base & ext & E & Hdot & Hlow)].
    - apply PyFacts.rpartition_None in Hdot. now rewrite Hdot.
    - assert (R : rpartition "." name = Some (base, ext))
        by (apply PyFacts.rpartition_Some; auto).
      rewrite R. cbn. rewrite orb_false_r. now apply String.eqb_neq. }
  unfold_handler. rewrite Hfiles, Hfile, Hname.
  rewrite (proj2 (String.eqb_neq _ _) Hnonempty).
  rewrite allowed_file_Some, Hext. reflexivity.
Qed.

Section PdfName.

(** The declared filename passes the extension check. *)
Hypothesis Hext : pdf_name name.

(** C6. When the filename passes the extension check and the first four
    bytes of the stream are not [%PDF] (a shorter stream included), the
    answer is status 400 with [File is not a valid PDF]; the trace holds
    the three calls of the sniff and nothing else: no size measurement,
    no identifier drawn, no client built, no put. *)
Theorem invalid_content_C6 :
  header_of file <> pdf_magic ->
  serve_upload w =
  (inr (error_response "File is not a valid PDF" 400),
   [EvSeek 0 SEEK_SET; EvRead 4; EvSeek 0 SEEK_SET]).
Proof.
  intros Hmagic.
  assert (Hb : bytes_eqb (header_of file) pdf_magic = false).
  { destruct (bytes_eqb _ _) eqn:E; [| reflexivity].
    now apply bytes_eqb_eq in E. }
  unfold_handler. rewrite Hfiles, Hfile, Hname.
  rewrite (proj2 (String.eqb_neq _ _) Hnonempty).
  rewrite allowed_file_Some, (proj2 (has_pdf_extension_iff _) Hext).
  cbn [negb]. rewrite is_pdf_file_run, Hb. reflexivity.
Qed.

Section PdfContent.

(** The stream starts with the PDF magic. *)
Hypothesis Hmagic : header_of file = pdf_magic.

(** C7. A stream that passed the earlier checks and is longer than
    [MAX_FILE_SIZE] bytes, which is 50 MiB, is answered with status 400 and
    [File size exceeds 50MB limit]; the number in the message is
    [MAX_FILE_SIZE // (1024*1024)], printed in decimal; nothing follows
    the measurement in the trace.  The handler for status 413 builds the
    same message. *)
Theorem too_large_C7 :
  Z.of_N (stream_len file) > MAX_FILE_SIZE ->
  serve_upload w =
  (inr (error_response "File size exceeds 50MB limit" 400),
   [EvSeek 0 SEEK_SET; EvRead 4; EvSeek 0 SEEK_SET;
    EvSeek 0 SEEK_END; EvTell; EvSeek 0 SEEK_SET]) /\
  MAX_FILE_SIZE = 50 * 2 ^ 20 /\
  "File size exceeds 50MB limit"
  = "File size exceeds " ++ str_int (MAX_FILE_SIZE / 2 ^ 20) ++ "MB limit" /\
  forall e, file_too_large e
            = (jsonify [("error", JStr "File size exceeds 50MB limit")], 413).
Proof.
  intros Hbig. split; [| repeat split].
  unfold_handler. rewrite Hfiles, Hfile, Hname.
  rewrite (proj2 (String.eqb_neq _ _) Hnonempty).
  rewrite allowed_file_Some, (proj2 (has_pdf_extension_iff _) Hext).
  cbn [negb]. rewrite is_pdf_file_run, Hmagic.
  change (bytes_eqb pdf_magic pdf_magic) with true. cbn [negb].
  flatten_trace. rewrite N.add_0_r.
  destruct (Z.gtb_spec (Z.of_N (stream_len file)) MAX_FILE_SIZE); [| lia].
  reflexivity.
Qed.

End PdfContent.

End PdfName.

End Request.

(** ** The upload step *)

Section Upload.

Import Py Spec.

(** An accepted request reaches the inner [try] with the stream at 0, the
    key derived from the identifier and the sanitised name, and the
    measured length. *)
Lemma accepted_run (w : World) (file : FileStorage) (name bucket : string)
    (client : S3Client) :
  accepted w file name bucket client ->
  upload_body w initial_state =
  upload_to_s3 client file bucket
    ("pdfs/" ++ uuid4 w ++ "_" ++ secure_filename w name)
    (secure_filename w name) (Z.of_N (stream_len file))
    {| pos := 0; trace := accepted_trace w |}.
Proof.
  intros ((files & Hfiles & Hfile) & Hname & Hne & Hext & Hmagic & Hsize
          & Hbucket & Hbne & Hclient).
  cbv [upload_body bind lift initial_state].
  rewrite Hfiles, Hfile, Hname.
  rewrite (proj2 (String.eqb_neq _ _) Hne).
  rewrite allowed_file_Some, (proj2 (has_pdf_extension_iff _) Hext).
  cbn [negb]. rewrite is_pdf_file_run, Hmagic.
  change (bytes_eqb pdf_magic pdf_magic) with true. cbn [negb].
  flatten_trace. rewrite N.add_0_r.
  destruct (Z.gtb_spec (Z.of_N (stream_len file)) MAX_FILE_SIZE); [lia |].
  rewrite Hbucket. unfold truthy.
  rewrite (proj2 (String.eqb_neq _ _) Hbne). cbn [negb].
  rewrite get_s3_client_run, Hclient.
  rewrite (proj2 (String.eqb_neq _ _) Hne). cbn [negb].
  reflexivity.
Qed.

(** The inner [try] makes the put first, whatever follows. *)
Lemma upload_to_s3_puts (client : S3Client) (file : FileStorage)
    (bucket key original : string) (size : Z) (st : State) :
  let call := {| Fileobj := file; Fileobj_pos := pos st; Bucket := bucket;
                 Key := key; ContentType := "application/pdf";
                 Metadata := [("original_filename", original);
                              ("file_size", str_int size)] |} in
  exists rest,
    trace (snd (upload_to_s3 client file bucket key original size st)) =
    (trace st ++ EvPut call (upload_fileobj client call) :: rest)%list.
Proof.
  cbv [upload_to_s3 try_except bind ret file_position call_upload_fileobj
       call_generate_presigned_url emit lift print].
  cbn [pos trace].
  match goal with
  | |- context [upload_fileobj client ?a] =>
      destruct (upload_fileobj client a) as [e|[]]
  end.
  - destruct e as [msg|response msg|cls msg]; try (now exists []).
    cbv [dict_get bind ret raise].
    destruct (assoc "Error" response) as [err|]; [| now exists []].
    destruct (assoc "Code" err) as [error_code|]; [| now exists []].
    destruct (error_code =? "NoSuchBucket")%string; now exists [].
  - match goal with
    | |- context [generate_presigned_url client ?a] =>
        destruct (generate_presigned_url client a) as [e|url]
    end; cbn [pos trace snd]; rewrite <- !app_assoc; eexists; reflexivity.
Qed.

(** When the request is accepted, the put succeeds and the signing raises
    [e], the answer is the success result with a null URL, and the trace
    ends with the warning. *)
Lemma presign_failure_run (w : World) (file : FileStorage)
    (name bucket : string) (client : S3Client) (e : PyExc) :
  accepted w file name bucket client ->
  upload_fileobj client (put_call w file bucket name) = inr tt ->
  generate_presigned_url client (presign_call w bucket name) = inl e ->
  serve_upload w =
  (inr (jsonify [("message", JStr "File uploaded successfully");
                 ("filename", JStr (secure_filename w name));
                 ("s3_key",
                  JStr ("pdfs/" ++ uuid4 w ++ "_" ++ secure_filename w name));
                 ("presigned_url", JNull);
                 ("file_size", JInt (Z.of_N (stream_len file)))], 200),
   (accepted_trace w ++
    [EvPut (put_call w file bucket name) (inr tt);
     EvPresign (presign_call w bucket name) (inl e);
     EvPrint ("Warning: Could not generate presigned URL: " ++ str_exc e)])%list).
Proof.
  intros Hacc Hput Hsign.
  cbv [serve_upload upload_file try_except].
  rewrite (accepted_run _ _ _ _ _ Hacc).
  cbv [upload_to_s3 try_except bind ret file_position call_upload_fileobj
       call_generate_presigned_url emit lift print].
  cbn [pos trace].
  change (Build_PutCall _ _ _ _ _ _) with (put_call w file bucket name).
  change (Build_PresignCall _ _ _ _) with (presign_call w bucket name).
  rewrite Hput, Hsign. cbn [pos trace]. rewrite <- !app_assoc. reflexivity.
Qed.

(** C8. In every request whose trace holds a put that returned and a
    signing that raised [e], the answer is the success result with status
    200: the message, the sanitised filename, the key of the put and the
    measured size are there, and [presigned_url] is null.  The exception
    is printed as a warning and goes no further. *)
Theorem presign_failure_C8 (w : World) (r : Response) (tr : list Event)
    (args : PutCall) (sargs : PresignCall) (e : PyExc) :
  serve_upload w = (inr r, tr) ->
  In (EvPut args (inr tt)) tr ->
  In (EvPresign sargs (inl e)) tr ->
  exists name,
    filename (Fileobj args) = Some name /\
    r = (jsonify [("message", JStr "File uploaded successfully");
                  ("filename", JStr (secure_filename w name));
                  ("s3_key", JStr (Key args));
                  ("presigned_url", JNull);
                  ("file_size", JInt (Z.of_N (stream_len (Fileobj args))))],
         200) /\
    Params_Key sargs = Key args /\
    In (EvPrint ("Warning: Could not generate presigned URL: " ++ str_exc e))
       tr.
Proof.
  intros Hrun Hput Hsign.
  destruct (serve_upload_cases w)
    as [(msg & status & tr' & E & _ & _ & Hnone)
       |(file & name & bucket & client & url & warning & res
         & Hacc & _ & _ & Hres & E)];
    rewrite E in Hrun; injection Hrun as <- <-.
  - destruct Hnone. now exists args.
  - cbn [In app sniff_trace measure_trace accepted_trace] in Hput, Hsign.
    assert (Hargs : args = put_call w file bucket name).
    { destruct Hput as [H|[H|[H|[H|[H|[H|[H|[H|[H|[H|H]]]]]]]]]];
        try discriminate.
      - now injection H.
      - destruct res as [e'|u]; destruct Hres as [_ ->]; cbn in H;
          intuition discriminate. }
    assert (Hfail : sargs = presign_call w bucket name /\ res = inl e).
    { destruct Hsign as [H|[H|[H|[H|[H|[H|[H|[H|[H|[H|H]]]]]]]]]];
        try discriminate.
      - now injection H.
      - destruct res as [e'|u]; destruct Hres as [_ ->]; cbn in H;
          intuition discriminate. }
    destruct Hfail as [-> ->]. destruct Hres as [-> ->]. subst args.
    exists name. destruct Hacc as (_ & Hname & _).
    split; [exact Hname |]. split; [reflexivity |]. split; [reflexivity |].
    cbn [In app sniff_trace measure_trace accepted_trace]. auto 14.
Qed.

End Upload.

(** ** The boundary of the handler *)

Section Boundary.

Import Py Spec.

(** A [try] whose handler always returns, returns. *)
Lemma try_except_returns {A : Type} (m : M A) (h : PyExc -> M A) :
  (forall e st, exists a st', h e st = (inr a, st')) ->
  forall st, exists a st', try_except m h st = (inr a, st').
Proof.
  intros Hh st. unfold try_except.
  destruct (m st) as [[e|a] st']; eauto.
Qed.

(** [Invalid filename] is never the answer, for any request, environment
    and store: the guard of that error stands before the sanitiser and
    tests the declared name, which the presence check has already found
    to be a non-empty string, and what the sanitiser returns is not
    tested. *)
Lemma never_invalid_filename (w : World) :
  fst (serve_upload w) <> inr (error_response "Invalid filename" 400).
Proof.
  destruct (serve_upload_cases w)
    as [(msg & status & tr & E & _ & Hmsg & _)
       |(file & name & bucket & client & url & warning & res & _ & _ & _ & _ & E)];
    rewrite E; cbn [fst]; intros H.
  - injection H as H _. congruence.
  - discriminate.
Qed.

(** C1. Every request is answered, and the answer holds the field
    [s3_key] exactly when the trace holds a put that returned.  A put that
    returned makes the answer a 200 that carries the key of that put; this
    covers the case where the signing raised afterwards, since nothing is
    assumed of it.  An answer to a failed validation or a failed put holds
    no key. *)
Theorem storage_key_iff_put_C1 (w : World) :
  exists r tr,
    serve_upload w = (inr r, tr) /\
    (has_field "s3_key" (fst r) = true <-> put_succeeded tr) /\
    (forall args, In (EvPut args (inr tt)) tr ->
                  snd r = 200 /\
                  field "s3_key" (fst r) = Some (JStr (Key args))) /\
    (snd r <> 200 -> has_field "s3_key" (fst r) = false).
Proof.
  destruct (serve_upload_cases w)
    as [(msg & status & tr & E & Hst & _ & Hput)
       |(file & name & bucket & client & url & warning & res
         & _ & _ & _ & Hres & E)];
    rewrite E; do 2 eexists; (split; [reflexivity |]).
  - cbn [fst snd]. split; [split | split].
    + discriminate.
    + intros H. now destruct Hput.
    + intros args H. destruct Hput. now exists args.
    + reflexivity.
  - assert (Hin : forall args,
               In (EvPut args (inr tt))
                  (accepted_trace w ++
                   [EvPut (put_call w file bucket name) (inr tt);
                    EvPresign (presign_call w bucket name) res] ++ warning) ->
               args = put_call w file bucket name).
    { intros args H.
      cbn [In app sniff_trace measure_trace accepted_trace] in H.
      destruct H as [H|[H|[H|[H|[H|[H|[H|[H|[H|[H|H]]]]]]]]]];
        try discriminate.
      - now injection H.
      - destruct res as [e|u]; destruct Hres as [_ ->]; cbn in H;
          intuition discriminate. }
    cbn [fst snd]. split; [split | split].
    + intros _. exists (put_call w file bucket name).
      apply in_or_app. right. now left.
    + reflexivity.
    + intros args H. apply Hin in H. now subst args.
    + intros H. now destruct H.
Qed.

(** C2. The view never raises, from any state: every request gets a
    result.  The result is structured: an error object with status 400 or
    500, or the success result.  An exception that leaves the body of the
    outer [try] becomes the answer [Server error: ] followed by its
    message, with status 500. *)
Theorem upload_file_total_C2 (w : World) :
  (forall st, exists r st', upload_file w st = (inr r, st')) /\
  (exists r tr, serve_upload w = (inr r, tr) /\ structured r) /\
  (forall e st,
      upload_body w initial_state = (inl e, st) ->
      serve_upload w =
      (inr (error_response ("Server error: " ++ str_exc e) 500), trace st)).
Proof.
  repeat split.
  - apply try_except_returns. intros e st. cbv [ret]. eauto.
  - destruct (serve_upload_cases w)
      as [(msg & status & tr & E & Hst & _)
         |(file & name & bucket & client & url & warning & res
           & _ & _ & _ & Hres & E)];
      rewrite E; do 2 eexists; (split; [reflexivity |]).
    + left. eauto.
    + right. exists (secure_filename w name), (Key (put_call w file bucket name)),
        url, (Z.of_N (stream_len file)).
      split; [reflexivity |].
      destruct res as [e|u]; destruct Hres as [-> _]; eauto.
  - intros e st H. cbv [serve_upload upload_file try_except].
    rewrite H. reflexivity.
Qed.

(** C10. In every answer with status 200, the field [filename] holds what
    [secure_filename] returned for the declared name; the trace holds
    one put, it returned, and its metadata [original_filename] holds the
    same string.  When the sanitiser changed the name, neither equals the
    declared name. *)
Theorem sanitized_filename_C10 (w : World) (r : Response) (tr : list Event) :
  serve_upload w = (inr r, tr) ->
  snd r = 200 ->
  exists file name args,
    (exists files,
        request_files w = inr files /\ assoc "file" files = Some file) /\
    filename file = Some name /\
    In (EvPut args (inr tt)) tr /\
    (forall args' res, In (EvPut args' res) tr -> args' = args) /\
    field "filename" (fst r) = Some (JStr (secure_filename w name)) /\
    assoc "original_filename" (Metadata args) = Some (secure_filename w name) /\
    (secure_filename w name <> name ->
     field "filename" (fst r) <> Some (JStr name) /\
     assoc "original_filename" (Metadata args) <> Some name).
Proof.
  intros Hrun Hok.
  destruct (serve_upload_cases w)
    as [(msg & status & tr' & E & Hst & _)
       |(file & name & bucket & client & url & warning & res
         & Hacc & _ & _ & Hres & E)];
    rewrite E in Hrun; injection Hrun as <- <-.
  - cbn in Hok. destruct Hst; subst status; discriminate.
  - exists file, name, (put_call w file bucket name).
    destruct Hacc as (Hfiles & Hname & _).
    split; [exact Hfiles |]. split; [exact Hname |].
    split.
    { cbn [In app sniff_trace measure_trace accepted_trace].
      repeat (first [left; reflexivity | right]). }
    split.
    { intros args' res' H.
      cbn [In app sniff_trace measure_trace accepted_trace] in H.
      destruct H as [H|[H|[H|[H|[H|[H|[H|[H|[H|[H|H]]]]]]]]]];
        try discriminate.
      - now injection H.
      - destruct res as [e|u]; destruct Hres as [_ ->]; cbn in H;
          intuition discriminate. }
    cbn. repeat split; congruence.
Qed.

End Boundary.

(** ** The client constructor *)

Section Region.

Import Py Spec.

(** C9, as the code has it.  [get_s3_client] calls [boto3.client] once,
    for the service [s3], and then at most prints.  The region it passes
    is: [us-east-1] when [AWS_REGION] is absent; the last
    whitespace-delimited token of the configured string when that string
    holds both an opening and a closing parenthesis; the configured string
    itself otherwise, a description without parentheses included. *)
Theorem region_normalized_C9 (w : World) (st : State) :
  exists call raised rest,
    trace (snd (get_s3_client w st))
    = (trace st ++ EvBoto3Client call raised :: rest)%list /\
    (forall ev, In ev rest -> exists line, ev = EvPrint line) /\
    service_name call = "s3" /\
    match getenv w "AWS_REGION" with
    | None => region_name call = "us-east-1"
    | Some r =>
        if contains "(" r && contains ")" r
        then last_token_of r (region_name call)
        else region_name call = r
    end.
Proof.
  assert (Hregion :
            match getenv w "AWS_REGION" with
            | None => client_region w = "us-east-1"
            | Some r =>
                if contains "(" r && contains ")" r
                then last_token_of r (client_region w)
                else client_region w = r
            end).
  { unfold client_region, getenv_default.
    destruct (getenv w "AWS_REGION") as [r|]; [| reflexivity].
    destruct (contains "(" r) eqn:Hopen; cbn [andb]; [| reflexivity].
    destruct (contains ")" r); [| reflexivity].
    apply (region_last_token r st Hopen). }
  rewrite get_s3_client_run.
  destruct (boto3_client w (client_call w)) as [e|c]; cbn [snd trace].
  - exists (client_call w), (Some e),
      [EvPrint ("Error creating S3 client: " ++ str_exc e)].
    repeat split; auto.
    intros ev [<-|[]]. eauto.
  - exists (client_call w), None, [].
    repeat split; auto. intros ev [].
Qed.

(** A description without parentheses is not recognised: the string is
    passed whole. *)
Lemma region_without_parentheses (w : World) (r : string) :
  getenv w "AWS_REGION" = Some r ->
  contains "(" r && contains ")" r = false ->
  client_region w = r.
Proof.
  intros Hr Hp. unfold client_region, getenv_default. now rewrite Hr, Hp.
Qed.

Example region_ohio :
  last (split "US East (Ohio) us-east-2") "" = "us-east-2".
Proof. reflexivity. Qed.

(** C9, as the specification states it, fails at the region
    [US East Ohio us-east-2]: a description is followed by the code, the
    last whitespace-delimited token is [us-east-2], and the client is
    built with the whole string.  It fails the other way at
    [us-east-2 (Ohio)], which does not end in a code and is not passed
    unchanged: the client is built with [(Ohio)]. *)
Lemma region_normalized_C9_counterexample :
  getenv MoreSamples.described_region "AWS_REGION"
  = Some "US East Ohio us-east-2" /\
  last_token_of "US East Ohio us-east-2" "us-east-2" /\
  trace (snd (get_s3_client MoreSamples.described_region initial_state))
  = [EvBoto3Client
       {| service_name := "s3";
          aws_access_key_id := None;
          aws_secret_access_key := None;
          region_name := "US East Ohio us-east-2" |} None] /\
  "US East Ohio us-east-2" <> "us-east-2" /\
  getenv MoreSamples.trailing_description "AWS_REGION"
  = Some "us-east-2 (Ohio)" /\
  trace (snd (get_s3_client MoreSamples.trailing_description initial_state))
  = [EvBoto3Client
       {| service_name := "s3";
          aws_access_key_id := None;
          aws_secret_access_key := None;
          region_name := "(Ohio)" |} None] /\
  "(Ohio)" <> "us-east-2 (Ohio)".
Proof.
  split; [reflexivity |]. split.
  { exists "US East Ohio ", "". repeat split; try reflexivity.
    - right. now exists "US East Ohio", " "%char.
    - discriminate. }
  repeat split; try reflexivity; discriminate.
Qed.

End Region.

(** ** The configuration report *)

Section Config.

Import Py Spec.

(** C4, as the code has it.  [get_config] answers 200; [details] holds
    the three presence flags and the region string, which is the value of
    [AWS_REGION] or [us-east-1] when it is absent; [configured] is the
    conjunction of the truth values of the four values of [details]: the
    three flags, and the region string not being empty. *)
Theorem get_config_all_values_C4 (w : World) :
  get_config w =
  (jsonify [("configured",
             JBool (truthy_opt (getenv w "AWS_ACCESS_KEY_ID")
                    && truthy_opt (getenv w "AWS_SECRET_ACCESS_KEY")
                    && truthy_opt (getenv w "AWS_S3_BUCKET")
                    && truthy (getenv_default w "AWS_REGION" "us-east-1")));
            ("details",
             JObj [("aws_access_key",
                    JBool (truthy_opt (getenv w "AWS_ACCESS_KEY_ID")));
                   ("aws_secret_key",
                    JBool (truthy_opt (getenv w "AWS_SECRET_ACCESS_KEY")));
                   ("aws_bucket",
                    JBool (truthy_opt (getenv w "AWS_S3_BUCKET")));
                   ("aws_region",
                    JStr (getenv_default w "AWS_REGION" "us-east-1"))])],
   200).
Proof.
  cbv [get_config config_status py_all map snd forallb truthy_json].
  now rewrite andb_true_r, !andb_assoc.
Qed.

(** With a region string that is not empty, and so whenever [AWS_REGION]
    is absent, [configured] is the conjunction of the three flags. *)
Lemma get_config_three_flags (w : World) :
  getenv w "AWS_REGION" <> Some "" ->
  field "configured" (fst (get_config w)) =
  Some (JBool (truthy_opt (getenv w "AWS_ACCESS_KEY_ID")
               && truthy_opt (getenv w "AWS_SECRET_ACCESS_KEY")
               && truthy_opt (getenv w "AWS_S3_BUCKET"))).
Proof.
  intros Hregion.
  cbv [get_config config_status py_all map snd forallb truthy_json].
  cbn [fst field jsonify assoc String.eqb Ascii.eqb Bool.eqb].
  do 2 f_equal.
  assert (Ht : truthy (getenv_default w "AWS_REGION" "us-east-1") = true).
  { unfold getenv_default, truthy.
    destruct (getenv w "AWS_REGION") as [r|]; [| reflexivity].
    destruct (String.eqb_spec r ""); [congruence | reflexivity]. }
  now rewrite Ht, !andb_true_r, !andb_assoc.
Qed.

(** C4, as the specification states it, fails at an environment that sets
    the three required variables and sets [AWS_REGION] to the empty
    string: the three flags are true and [configured] is false.  The
    start-up check finds no variable missing there. *)
Lemma get_config_C4_counterexample :
  get_config Samples.empty_region =
  (jsonify [("configured", JBool false);
            ("details",
             JObj [("aws_access_key", JBool true);
                   ("aws_secret_key", JBool true);
                   ("aws_bucket", JBool true);
                   ("aws_region", JStr "")])], 200) /\
  field "configured" (fst (get_config Samples.empty_region))
  <> Some (JBool
             (truthy_opt (getenv Samples.empty_region "AWS_ACCESS_KEY_ID")
              && truthy_opt (getenv Samples.empty_region "AWS_SECRET_ACCESS_KEY")
              && truthy_opt (getenv Samples.empty_region "AWS_S3_BUCKET"))) /\
  missing_vars Samples.empty_region = [].
Proof. repeat split; try reflexivity. discriminate. Qed.

End Config.

(** ** The properties at sample requests *)

Section Witnesses.

Import Py Spec Samples.

Lemma small_pdf_accepted :
  accepted small_pdf (pdf_file "a.pdf" 10) "a.pdf" "bkt" ok_client.
Proof.
  unfold accepted. repeat split; try reflexivity; try discriminate.
  - now exists [("file", pdf_file "a.pdf" 10)].
  - now exists "a", "pdf".
Qed.

(** The scenario of the specification: ten bytes, [a.pdf]. *)
Example small_pdf_uploaded :
  fst (serve_upload small_pdf) =
  inr (success_response "a.pdf"
         "pdfs/1b4e28ba-2fa1-41d2-883f-0016d3cca427_a.pdf"
         (JStr "https://s3.test/pdfs/1b4e28ba-2fa1-41d2-883f-0016d3cca427_a.pdf")
         10).
Proof. reflexivity. Qed.

(** C1 at a request whose put succeeds and whose signing raises: the key
    is issued. *)
Lemma storage_key_iff_put_C1_witness :
  exists r tr,
    serve_upload unsigned = (inr r, tr) /\
    (has_field "s3_key" (fst r) = true <-> put_succeeded tr) /\
    (forall args, In (EvPut args (inr tt)) tr ->
                  snd r = 200 /\
                  field "s3_key" (fst r) = Some (JStr (Key args))) /\
    (snd r <> 200 -> has_field "s3_key" (fst r) = false).
Proof. exact (storage_key_iff_put_C1 unsigned). Defined.

(** C2 at a request whose [request.files] raises. *)
Lemma upload_file_total_C2_witness :
  upload_body unreadable initial_state
  = (inl (Exception "BadRequest" "400 Bad Request"), initial_state) /\
  serve_upload unreadable
  = (inr (error_response "Server error: 400 Bad Request" 500), []).
Proof.
  split; [reflexivity |].
  apply (proj2 (proj2 (upload_file_total_C2 unreadable))
           (Exception "BadRequest" "400 Bad Request") initial_state).
  reflexivity.
Defined.

(** Faults that reach the outer [except]: a file part without a
    filename, and a [ClientError] whose response carries no code. *)
Example nameless_server_error :
  fst (serve_upload nameless)
  = inr (error_response
           "Server error: argument of type 'NoneType' is not iterable" 500).
Proof. reflexivity. Qed.

Example codeless_server_error :
  fst (serve_upload codeless)
  = inr (error_response "Server error: 'Error'" 500).
Proof. reflexivity. Qed.

(** The scenario of the specification: the store has no such bucket. *)
Example no_bucket_error :
  fst (serve_upload no_bucket)
  = inr (error_response "S3 bucket does not exist" 500).
Proof. reflexivity. Qed.

(** C5 at a PDF stream declared as [a.txt]. *)
Lemma unsupported_type_C5_witness :
  serve_upload txt_named
  = (inr (error_response "Only PDF files are allowed" 400), []).
Proof.
  apply (unsupported_type_C5 txt_named [("file", pdf_file "a.txt" 10)]
           (pdf_file "a.txt" 10) "a.txt");
    try reflexivity; try discriminate.
  right. exists "a", "txt". repeat split; try reflexivity. discriminate.
Defined.

(** C6 at a text stream declared as [a.pdf]. *)
Lemma invalid_content_C6_witness :
  header_of {| filename := Some "a.pdf"; stream := text_stream;
               stream_len := 3 |} = ["h"; "e"; "y"]%byte /\
  serve_upload spoofed
  = (inr (error_response "File is not a valid PDF" 400),
     [EvSeek 0 SEEK_SET; EvRead 4; EvSeek 0 SEEK_SET]).
Proof.
  split; [reflexivity |].
  apply (invalid_content_C6 spoofed
           [("file", {| filename := Some "a.pdf"; stream := text_stream;
                        stream_len := 3 |})]
           {| filename := Some "a.pdf"; stream := text_stream;
              stream_len := 3 |} "a.pdf");
    try reflexivity; try discriminate.
  now exists "a", "pdf".
Defined.

(** C7 at a PDF of 50 MiB and one byte. *)
Lemma too_large_C7_witness :
  Z.of_N (stream_len (pdf_file "big.pdf" 52428801)) > MAX_FILE_SIZE /\
  serve_upload oversized
  = (inr (error_response "File size exceeds 50MB limit" 400),
     [EvSeek 0 SEEK_SET; EvRead 4; EvSeek 0 SEEK_SET;
      EvSeek 0 SEEK_END; EvTell; EvSeek 0 SEEK_SET]).
Proof.
  split; [reflexivity |].
  apply (too_large_C7 oversized [("file", pdf_file "big.pdf" 52428801)]
           (pdf_file "big.pdf" 52428801) "big.pdf");
    try reflexivity; try discriminate.
  now exists "big", "pdf".
Defined.

(** C8 at the ten-byte upload with a store that cannot sign. *)
Lemma presign_failure_C8_witness :
  exists name,
    filename (pdf_file "a.pdf" 10) = Some name /\
    (jsonify [("message", JStr "File uploaded successfully");
              ("filename", JStr "a.pdf");
              ("s3_key", JStr "pdfs/1b4e28ba-2fa1-41d2-883f-0016d3cca427_a.pdf");
              ("presigned_url", JNull);
              ("file_size", JInt 10)], 200)
    = (jsonify [("message", JStr "File uploaded successfully");
                ("filename", JStr (secure_filename unsigned name));
                ("s3_key",
                 JStr (Key (put_call unsigned (pdf_file "a.pdf" 10) "bkt"
                              "a.pdf")));
                ("presigned_url", JNull);
                ("file_size", JInt 10)], 200) /\
    Params_Key (presign_call unsigned "bkt" "a.pdf")
    = Key (put_call unsigned (pdf_file "a.pdf" 10) "bkt" "a.pdf") /\
    In (EvPrint "Warning: Could not generate presigned URL: no signer")
       (snd (serve_upload unsigned)).
Proof.
  apply (presign_failure_C8 unsigned _ _
           (put_call unsigned (pdf_file "a.pdf" 10) "bkt" "a.pdf")
           (presign_call unsigned "bkt" "a.pdf")
           (Exception "ValueError" "no signer") eq_refl).
  - cbn. do 8 right. left. reflexivity.
  - cbn. do 9 right. left. reflexivity.
Defined.

(** C9 at the region [US East (Ohio) us-east-2]: the client is built for
    [us-east-2]. *)
Lemma region_normalized_C9_witness :
  trace (snd (get_s3_client small_pdf initial_state))
  = [EvBoto3Client
       {| service_name := "s3";
          aws_access_key_id := Some "AKIATEST";
          aws_secret_access_key := Some "secret";
          region_name := "us-east-2" |} None] /\
  exists call raised rest,
    trace (snd (get_s3_client small_pdf initial_state))
    = (trace initial_state ++ EvBoto3Client call raised :: rest)%list /\
    (forall ev, In ev rest -> exists line, ev = EvPrint line) /\
    service_name call = "s3" /\
    last_token_of "US East (Ohio) us-east-2" (region_name call).
Proof.
  split; [reflexivity |].
  exact (region_normalized_C9 small_pdf initial_state).
Defined.

(** C9 at an absent and at a plain region. *)
Example region_default :
  client_region no_region = "us-east-1" /\
  client_region plain_region = "eu-west-1".
Proof. split; reflexivity. Qed.

(** C10 at an upload declared as [my file.pdf] and sanitised to
    [my_file.pdf]. *)
Lemma sanitized_filename_C10_witness :
  exists file name args,
    (exists files,
        request_files spaced_name = inr files /\
        assoc "file" files = Some file) /\
    filename file = Some name /\
    In (EvPut args (inr tt)) (snd (serve_upload spaced_name)) /\
    (forall args' res,
        In (EvPut args' res) (snd (serve_upload spaced_name)) ->
        args' = args) /\
    field "filename"
      (fst (success_response "my_file.pdf"
              "pdfs/1b4e28ba-2fa1-41d2-883f-0016d3cca427_my_file.pdf"
              (JStr "https://s3.test/pdfs/1b4e28ba-2fa1-41d2-883f-0016d3cca427_my_file.pdf")
              10))
    = Some (JStr (secure_filename spaced_name name)) /\
    assoc "original_filename" (Metadata args)
    = Some (secure_filename spaced_name name) /\
    (secure_filename spaced_name name <> name ->
     field "filename"
       (fst (success_response "my_file.pdf"
               "pdfs/1b4e28ba-2fa1-41d2-883f-0016d3cca427_my_file.pdf"
               (JStr "https://s3.test/pdfs/1b4e28ba-2fa1-41d2-883f-0016d3cca427_my_file.pdf")
               10))
     <> Some (JStr name) /\
     assoc "original_filename" (Metadata args) <> Some name).
Proof.
  exact (sanitized_filename_C10 spaced_name _ _ eq_refl eq_refl).
Defined.

End Witnesses.

(** * Further properties of the code *)

(** ** Every request has one of the outcomes *)

Ltac answered c :=
  do 2 eexists; split; [reflexivity | eapply c; eauto].

Section OutcomeOfRequest.

Import Py Spec Outcomes.

Lemma serve_upload_outcome (w : World) :
  exists r tr, serve_upload w = (inr r, tr) /\ Outcome w r tr.
Proof.
  unfold_handler.
  destruct (request_files w) as [e|files] eqn:Hfiles.
  { answered OutUnreadable. }
  destruct (assoc "file" files) as [file|] eqn:Hfile.
  2: { answered OutNoFile. }
  destruct (filename file) as [name|] eqn:Hname.
  2: { cbn. answered OutNameless. }
  destruct (String.eqb_spec name "") as [->|Hne].
  { answered OutNoName. }
  assert (Hpresent : present w file name) by (unfold present; eauto 6).
  rewrite allowed_file_Some.
  destruct (has_pdf_extension name) eqn:Hext; cbn [negb].
  2: { answered OutBadType. intros H. apply has_pdf_extension_iff in H.
       congruence. }
  apply has_pdf_extension_iff in Hext.
  rewrite is_pdf_file_run.
  destruct (bytes_eqb (header_of file) pdf_magic) eqn:Hmagic; cbn [negb].
  2: { answered OutBadContent. intros H. apply bytes_eqb_eq in H.
       congruence. }
  apply bytes_eqb_eq in Hmagic.
  flatten_trace. rewrite N.add_0_r.
  destruct (Z.gtb_spec (Z.of_N (stream_len file)) MAX_FILE_SIZE) as [Hgt|Hsize].
  { answered OutTooLarge. lia. }
  destruct (getenv w "AWS_S3_BUCKET") as [bucket|] eqn:Hbucket.
  2: { answered OutNoBucket. now rewrite Hbucket. }
  unfold truthy.
  destruct (String.eqb_spec bucket "") as [->|Hbne]; cbn [negb].
  { answered OutNoBucket. now rewrite Hbucket. }
  rewrite get_s3_client_run.
  destruct (boto3_client w (client_call w)) as [e|client] eqn:Hclient.
  { flatten_trace. answered OutNoClient. }
  destruct (String.eqb_spec name "") as [->|_]; [congruence |]; cbn [negb].
  flatten_trace.
  assert (Hacc : accepted w file name bucket client).
  { destruct Hpresent as (Hf & Hn & _). unfold accepted. repeat split; eauto. }
  cbv [upload_to_s3 try_except bind ret file_position call_upload_fileobj
       call_generate_presigned_url emit lift print].
  cbn [pos trace app].
  match goal with
  | |- context [upload_fileobj client ?a] =>
      change a with (put_call w file bucket name)
  end.
  match goal with
  | |- context [generate_presigned_url client ?a] =>
      change a with (presign_call w bucket name)
  end.
  destruct (upload_fileobj client (put_call w file bucket name))
    as [e|[]] eqn:Hput.
  - destruct e as [msg|response msg|cls msg].
    + answered OutPutFailed. constructor.
    + cbv [dict_get bind ret raise].
      destruct (assoc "Error" response) as [err|] eqn:Herr.
      * destruct (assoc "Code" err) as [error_code|] eqn:Hcode.
        -- destruct (String.eqb_spec error_code "NoSuchBucket") as [->|Hc].
           ++ answered OutPutFailed. eapply FailNoSuchBucket; eauto.
           ++ answered OutPutFailed. eapply FailStore; eauto.
        -- answered OutPutFailed. eapply FailNoCode; eauto.
      * answered OutPutFailed. eapply FailNoError; eauto.
    + answered OutPutFailed. constructor.
  - destruct (generate_presigned_url client (presign_call w bucket name))
      as [e|url] eqn:Hsign.
    + answered OutUnsigned.
    + answered OutUploaded.
Qed.

End OutcomeOfRequest.

(** ** The two file checks *)

Ltac each_char c :=
  destruct c as [[] [] [] [] [] [] [] []]; vm_compute.

Section FileChecks.

Import Py Spec Outcomes.

Lemma lower_char_p (c : ascii) :
  lower_char c = "p"%char <-> c = "p"%char \/ c = "P"%char.
Proof.
  each_char c; split; intros H;
    solve [discriminate | auto | destruct H; discriminate].
Qed.

Lemma lower_char_d (c : ascii) :
  lower_char c = "d"%char <-> c = "d"%char \/ c = "D"%char.
Proof.
  each_char c; split; intros H;
    solve [discriminate | auto | destruct H; discriminate].
Qed.

Lemma lower_char_f (c : ascii) :
  lower_char c = "f"%char <-> c = "f"%char \/ c = "F"%char.
Proof.
  each_char c; split; intros H;
    solve [discriminate | auto | destruct H; discriminate].
Qed.

Lemma lower_char_dot (c : ascii) :
  (lower_char c =? ".")%char = (c =? ".")%char.
Proof. each_char c; reflexivity. Qed.

Lemma lower_char_idem (c : ascii) : lower_char (lower_char c) = lower_char c.
Proof. each_char c; reflexivity. Qed.

Lemma lower_idem (s : string) : lower (lower s) = lower s.
Proof.
  induction s as [|c s IH]; simpl; [reflexivity |].
  now rewrite lower_char_idem, IH.
Qed.

Lemma rpartition_lower (s : string) :
  rpartition "." (lower s) =
  match rpartition "." s with
  | Some (a, b) => Some (lower a, lower b)
  | None => None
  end.
Proof.
  induction s as [|c s IH]; simpl; [reflexivity |].
  rewrite IH. destruct (rpartition "." s) as [[a b]|]; [reflexivity |].
  rewrite lower_char_dot. now destruct (c =? ".")%char.
Qed.

(** The strings that lowercase to [pdf]. *)
Lemma lower_pdf (ext : string) :
  lower ext = "pdf" <-> In ext pdf_spellings.
Proof.
  split.
  - destruct ext as [|a [|b [|c [|d rest]]]]; simpl; try discriminate.
    intros H. injection H as Ha Hb Hc.
    apply lower_char_p in Ha. apply lower_char_d in Hb.
    apply lower_char_f in Hc.
    destruct Ha as [-> | ->], Hb as [-> | ->], Hc as [-> | ->];
      cbn; auto 10.
  - cbn. intros H.
    repeat (destruct H as [<-|H]; [reflexivity |]). destruct H.
Qed.

(** On a string, [allowed_file] returns, leaves the state alone and
    answers whether the name ends in a dot and a last extension that
    lowercases to [pdf]: the index [1] after [rsplit] never fails, since it
    is taken only when the name holds a dot. *)
Theorem allowed_file_returns (name : string) (st : State) :
  exists b,
    allowed_file (Some name) st = (inr b, st) /\
    (b = true <-> pdf_name name).
Proof.
  exists (has_pdf_extension name). split.
  - apply allowed_file_Some.
  - apply has_pdf_extension_iff.
Qed.

(** [allowed_file] accepts exactly the names that end in a dot followed by
    one of the eight spellings of [pdf]; what stands before that dot,
    nothing included, does not matter. *)
Theorem allowed_file_spellings (name : string) (st : State) :
  allowed_file (Some name) st = (inr true, st) <->
  exists base ext, name = base ++ String "." ext /\ In ext pdf_spellings.
Proof.
  rewrite allowed_file_Some. split.
  - intros H. injection H as H. apply has_pdf_extension_iff in H.
    destruct H as (base & ext & -> & _ & Hlow).
    exists base, ext. split; [reflexivity |]. now apply lower_pdf.
  - intros (base & ext & -> & Hin).
    assert (Hdot : contains "." ext = false).
    { cbn in Hin. repeat (destruct Hin as [<-|Hin]; [reflexivity |]).
      destruct Hin. }
    apply lower_pdf in Hin.
    assert (H : has_pdf_extension (base ++ String "." ext) = true).
    { apply has_pdf_extension_iff. exists base, ext. auto. }
    now rewrite H.
Qed.

(** The extension check does not depend on the case of the name. *)
Theorem allowed_file_case_insensitive (name : string) (st : State) :
  allowed_file (Some (lower name)) st = allowed_file (Some name) st.
Proof.
  rewrite !allowed_file_Some. unfold has_pdf_extension.
  rewrite rpartition_lower.
  destruct (rpartition "." name) as [[a b]|]; [| reflexivity].
  now rewrite lower_idem.
Qed.

Lemma header_of_magic (f : FileStorage) :
  header_of f = pdf_magic <->
  (4 <= stream_len f)%N /\
  stream f 0 = "%"%byte /\ stream f 1 = "P"%byte /\
  stream f 2 = "D"%byte /\ stream f 3 = "F"%byte.
Proof.
  unfold header_of, stream_bytes, pdf_magic.
  destruct (N.le_gt_cases 4 (stream_len f)) as [Hge|Hlt].
  - rewrite N.min_l by exact Hge.
    change (map (fun i => stream f (0 + N.of_nat i)%N) (seq 0 (N.to_nat 4)))
      with [stream f 0; stream f 1; stream f 2; stream f 3].
    split.
    + intros H. injection H as H0 H1 H2 H3. auto.
    + intros (_ & -> & -> & -> & ->). reflexivity.
  - rewrite N.min_r by lia.
    split; [| lia].
    intros H. apply (f_equal (@length byte)) in H.
    rewrite length_map, length_seq in H. cbn in H. lia.
Qed.

(** [is_pdf_file] starts at byte 0 wherever the stream stood, answers
    whether the stream has at least four bytes and they are [%PDF], and
    leaves the stream at 0 in both cases. *)
Theorem is_pdf_file_spec (f : FileStorage) (st : State) :
  exists b,
    is_pdf_file f st =
    (inr b,
     {| pos := 0;
        trace := trace st
                 ++ [EvSeek 0 SEEK_SET; EvRead 4; EvSeek 0 SEEK_SET] |}) /\
    (b = true <->
     (4 <= stream_len f)%N /\
     stream f 0 = "%"%byte /\ stream f 1 = "P"%byte /\
     stream f 2 = "D"%byte /\ stream f 3 = "F"%byte).
Proof.
  exists (bytes_eqb (header_of f) pdf_magic). split.
  - apply is_pdf_file_run.
  - rewrite bytes_eqb_eq. apply header_of_magic.
Qed.

End FileChecks.

(** ** The outcomes are exact *)

Ltac run_checks Hp Hext Hmagic :=
  let files := fresh "files" in
  let Hfiles := fresh "Hfiles" in
  let Hfile := fresh "Hfile" in
  let Hname := fresh "Hname" in
  let Hne := fresh "Hne" in
  destruct Hp as ((files & Hfiles & Hfile) & Hname & Hne);
  unfold_handler; rewrite Hfiles, Hfile, Hname;
  rewrite (proj2 (String.eqb_neq _ _) Hne);
  rewrite allowed_file_Some, (proj2 (has_pdf_extension_iff _) Hext);
  cbn [negb]; rewrite is_pdf_file_run.

Ltac run_upload Hacc :=
  cbv [serve_upload upload_file try_except];
  rewrite (accepted_run _ _ _ _ _ Hacc);
  cbv [upload_to_s3 try_except bind ret raise file_position
       call_upload_fileobj call_generate_presigned_url emit lift print
       dict_get];
  cbn [pos trace];
  cbn [pos trace].

Section OutcomeExact.

Import Py Spec Outcomes.

Lemma outcome_sound (w : World) (r : Response) (tr : list Event) :
  Outcome w r tr -> serve_upload w = (inr r, tr).
Proof.
  intros H. destruct H
    as [e Hfiles
       |files Hfiles Hfile
       |files file Hfiles Hfile Hname
       |files file Hfiles Hfile Hname
       |file name Hp Hext
       |file name Hp Hext Hmagic
       |file name Hp Hext Hmagic Hsize
       |file name Hp Hext Hmagic Hsize Hbucket
       |file name bucket e Hp Hext Hmagic Hsize Hbucket Hbne Hclient
       |file name bucket client e msg Hacc Hput Hfail
       |file name bucket client url Hacc Hput Hsign
       |file name bucket client e Hacc Hput Hsign].
  - unfold_handler. now rewrite Hfiles.
  - unfold_handler. now rewrite Hfiles, Hfile.
  - unfold_handler. now rewrite Hfiles, Hfile, Hname.
  - unfold_handler. now rewrite Hfiles, Hfile, Hname.
  - destruct Hp as ((files & Hfiles & Hfile) & Hname & Hne).
    unfold_handler. rewrite Hfiles, Hfile, Hname.
    rewrite (proj2 (String.eqb_neq _ _) Hne), allowed_file_Some.
    destruct (has_pdf_extension name) eqn:E; [| reflexivity].
    apply has_pdf_extension_iff in E. contradiction.
  - run_checks Hp Hext Hmagic.
    destruct (bytes_eqb (header_of file) pdf_magic) eqn:E; [| reflexivity].
    apply bytes_eqb_eq in E. contradiction.
  - run_checks Hp Hext Hmagic. rewrite Hmagic.
    change (bytes_eqb pdf_magic pdf_magic) with true. cbn [negb].
    flatten_trace. rewrite N.add_0_r.
    destruct (Z.gtb_spec (Z.of_N (stream_len file)) MAX_FILE_SIZE); [| lia].
    reflexivity.
  - run_checks Hp Hext Hmagic. rewrite Hmagic.
    change (bytes_eqb pdf_magic pdf_magic) with true. cbn [negb].
    flatten_trace. rewrite N.add_0_r.
    destruct (Z.gtb_spec (Z.of_N (stream_len file)) MAX_FILE_SIZE); [lia |].
    destruct (getenv w "AWS_S3_BUCKET") as [bucket|]; [| reflexivity].
    cbn [truthy_opt] in Hbucket. now rewrite Hbucket.
  - run_checks Hp Hext Hmagic. rewrite Hmagic.
    change (bytes_eqb pdf_magic pdf_magic) with true. cbn [negb].
    flatten_trace. rewrite N.add_0_r.
    destruct (Z.gtb_spec (Z.of_N (stream_len file)) MAX_FILE_SIZE); [lia |].
    rewrite Hbucket. unfold truthy.
    rewrite (proj2 (String.eqb_neq _ _) Hbne). cbn [negb].
    rewrite get_s3_client_run, Hclient. reflexivity.
  - run_upload Hacc.
    change (Build_PutCall _ _ _ _ _ _) with (put_call w file bucket name).
    rewrite Hput.
    destruct Hfail
      as [m|response m err Herr Hcode|response m err code Herr Hcode Hc
         |response m Herr|response m err Herr Hcode|cls m];
      rewrite ?Herr, ?Hcode; try reflexivity.
    now rewrite (proj2 (String.eqb_neq _ _) Hc).
  - run_upload Hacc.
    change (Build_PutCall _ _ _ _ _ _) with (put_call w file bucket name).
    change (Build_PresignCall _ _ _ _) with (presign_call w bucket name).
    rewrite Hput, Hsign. cbn [pos trace].
    now rewrite <- !app_assoc.
  - run_upload Hacc.
    change (Build_PutCall _ _ _ _ _ _) with (put_call w file bucket name).
    change (Build_PresignCall _ _ _ _) with (presign_call w bucket name).
    rewrite Hput, Hsign. cbn [pos trace].
    now rewrite <- !app_assoc.
Qed.

Lemma outcome_complete (w : World) (r : Response) (tr : list Event) :
  serve_upload w = (inr r, tr) -> Outcome w r tr.
Proof.
  intros H. destruct (serve_upload_outcome w) as (r' & tr' & E & Hout).
  rewrite E in H. now injection H as <- <-.
Qed.

(** The handler's answers and traces are exactly the outcomes: each of the
    twelve ways through [upload_file] gives its answer, and no request is
    answered otherwise. *)
Theorem serve_upload_iff_outcome (w : World) (r : Response)
    (tr : list Event) :
  serve_upload w = (inr r, tr) <-> Outcome w r tr.
Proof.
  split; [apply outcome_complete | apply outcome_sound].
Qed.

End OutcomeExact.

(** ** The client constructor and the reported region *)

Section ClientConstructor.

Import Py Spec Outcomes.

(** [get_s3_client] never raises and leaves the stream where it was.  It
    returns the client that [boto3.client] returned; when [boto3.client]
    raised [e] it returns [None], and the trace gains the call and one
    printed line that carries the message of [e]. *)
Theorem get_s3_client_never_raises (w : World) (st : State) :
  exists res st',
    get_s3_client w st = (inr res, st') /\
    pos st' = pos st /\
    (forall c, res = Some c <-> boto3_client w (client_call w) = inr c) /\
    (forall e,
        boto3_client w (client_call w) = inl e ->
        res = None /\
        trace st' =
        (trace st ++
         [EvBoto3Client (client_call w) (Some e);
          EvPrint ("Error creating S3 client: " ++ str_exc e)])%list).
Proof.
  rewrite get_s3_client_run.
  destruct (boto3_client w (client_call w)) as [e|c]; do 2 eexists;
    (split; [reflexivity |]); cbn [pos trace]; repeat split;
    try congruence.
Qed.

(** A configured region with both parentheses and whitespace is handed to
    [boto3.client] cut down to a token without whitespace, while
    [get_config] reports the configured string as it is: the two differ. *)
Theorem reported_region_not_normalized (w : World) (r : string)
    (call : ClientCall) (raised : option PyExc) :
  getenv w "AWS_REGION" = Some r ->
  contains "(" r && contains ")" r = true ->
  no_space r = false ->
  In (EvBoto3Client call raised)
     (trace (snd (get_s3_client w initial_state))) ->
  no_space (region_name call) = true /\
  region_name call <> r /\
  exists details,
    field "details" (fst (get_config w)) = Some details /\
    field "aws_region" details = Some (JStr r).
Proof.
  intros Hr Hp Hsp Hin.
  assert (Hcall : call = client_call w).
  { rewrite get_s3_client_run in Hin.
    destruct (boto3_client w (client_call w)); cbn in Hin;
      intuition congruence. }
  subst call. cbn [region_name client_call].
  assert (Htok : last_token_of r (client_region w)).
  { unfold client_region, getenv_default. rewrite Hr, Hp.
    apply andb_prop in Hp as [Hopen _].
    apply (region_last_token r initial_state Hopen). }
  destruct Htok as (pre & suf & E & _ & _ & Hns & _).
  split; [exact Hns |]. split.
  - intros Heq. rewrite Heq in Hns. congruence.
  - eexists. split; [reflexivity |].
    cbn. unfold getenv_default. now rewrite Hr.
Qed.

End ClientConstructor.

(** ** Answers of the handler, path by path *)

Section Paths.

Import Py Spec Outcomes.

Lemma present_unique (w : World) (f1 f2 : FileStorage) (n1 n2 : string) :
  present w f1 n1 -> present w f2 n2 -> f1 = f2 /\ n1 = n2.
Proof.
  intros ((fs1 & Hf1 & Ha1) & Hn1 & _) ((fs2 & Hf2 & Ha2) & Hn2 & _).
  assert (fs1 = fs2) by congruence. subst fs2.
  assert (f1 = f2) by congruence. subst f2.
  split; congruence.
Qed.

Lemma accepted_present (w : World) (file : FileStorage)
    (name bucket : string) (client : S3Client) :
  accepted w file name bucket client -> present w file name.
Proof. intros (Hf & Hn & Hne & _). now repeat split. Qed.

Lemma accepted_unique (w : World) (f1 f2 : FileStorage)
    (n1 n2 b1 b2 : string) (c1 c2 : S3Client) :
  accepted w f1 n1 b1 c1 -> accepted w f2 n2 b2 c2 ->
  f1 = f2 /\ n1 = n2 /\ b1 = b2 /\ c1 = c2.
Proof.
  intros H1 H2.
  destruct (present_unique w f1 f2 n1 n2 (accepted_present _ _ _ _ _ H1)
              (accepted_present _ _ _ _ _ H2)) as [-> ->].
  destruct H1 as (_ & _ & _ & _ & _ & _ & Hb1 & _ & Hc1).
  destruct H2 as (_ & _ & _ & _ & _ & _ & Hb2 & _ & Hc2).
  repeat split; congruence.
Qed.

(** A request without the part [file], and one whose part has an empty
    filename, are answered 400 before anything is read. *)
Theorem missing_file_rejected (w : World)
    (files : list (string * FileStorage)) :
  request_files w = inr files ->
  (assoc "file" files = None ->
   serve_upload w = (inr (error_response "No file provided" 400), [])) /\
  (forall file,
      assoc "file" files = Some file -> filename file = Some "" ->
      serve_upload w = (inr (error_response "No file selected" 400), [])).
Proof.
  intros Hfiles. split.
  - intros Hnone. apply outcome_sound. eapply OutNoFile; eauto.
  - intros file Hfile Hname. apply outcome_sound. eapply OutNoName; eauto.
Qed.

(** A file part whose filename is [None] is answered 500, not 400: the
    [TypeError] of the extension check reaches the outer [except]. *)
Theorem nameless_part_is_server_error (w : World)
    (files : list (string * FileStorage)) (file : FileStorage) :
  request_files w = inr files ->
  assoc "file" files = Some file ->
  filename file = None ->
  serve_upload w =
  (inr (error_response
          "Server error: argument of type 'NoneType' is not iterable" 500),
   []).
Proof.
  intros Hfiles Hfile Hname. apply outcome_sound.
  eapply OutNameless; eauto.
Qed.

(** Among the requests whose name and content pass, the answer is the
    size error exactly when the stream is longer than [MAX_FILE_SIZE]: a
    stream of exactly [MAX_FILE_SIZE] bytes is not refused for its size. *)
Theorem too_large_iff (w : World) (file : FileStorage) (name : string) :
  present w file name ->
  pdf_name name ->
  header_of file = pdf_magic ->
  (fst (serve_upload w)
   = inr (error_response "File size exceeds 50MB limit" 400)
   <-> Z.of_N (stream_len file) > MAX_FILE_SIZE).
Proof.
  intros Hp Hext Hmagic. split.
  - destruct (serve_upload_outcome w) as (r & tr & E & Hout).
    rewrite E. cbn [fst]. intros H. injection H as ->.
    inversion Hout; subst; try discriminate.
    match goal with
    | Hp' : present w ?f ?n |- _ =>
        destruct (present_unique w f file n name Hp' Hp) as [-> ->]
    end. assumption.
  - intros Hbig.
    rewrite (outcome_sound w _ _ (OutTooLarge w file name Hp Hext Hmagic Hbig)).
    reflexivity.
Qed.

(** The handler answers [S3 bucket not configured] exactly when a request
    has passed the name, content and size checks and [AWS_S3_BUCKET] is
    unset or empty, which is when [get_config] reports [aws_bucket] false.
    No client is built for such a request. *)
Theorem bucket_not_configured_iff (w : World) :
  fst (serve_upload w)
  = inr (error_response "S3 bucket not configured" 500)
  <->
  (exists file name,
      present w file name /\ pdf_name name /\
      header_of file = pdf_magic /\
      Z.of_N (stream_len file) <= MAX_FILE_SIZE) /\
  (exists details,
      field "details" (fst (get_config w)) = Some details /\
      field "aws_bucket" details = Some (JBool false)).
Proof.
  split.
  - destruct (serve_upload_outcome w) as (r & tr & E & Hout).
    rewrite E. cbn [fst]. intros H. injection H as ->.
    inversion Hout; subst; try discriminate;
      try match goal with
        | Hf : put_failure _ _ |- _ => inversion Hf; subst; discriminate
        end.
    split; [eauto 8 |].
    eexists. split; [reflexivity |]. cbn.
    match goal with
    | Hb : truthy_opt _ = false |- _ => now rewrite Hb
    end.
  - intros ((file & name & Hp & Hext & Hmagic & Hsize) & details & Hd & Hb).
    cbn in Hd. injection Hd as <-. cbn in Hb. injection Hb as Hb.
    rewrite (outcome_sound w _ _
               (OutNoBucket w file name Hp Hext Hmagic Hsize Hb)).
    reflexivity.
Qed.

(** When the checks and the bucket pass and [boto3.client] raises, the
    answer is 500 [Failed to initialize S3 client]; the exception is
    printed, no identifier is drawn and no put is made. *)
Theorem client_init_failed (w : World) (file : FileStorage)
    (name bucket : string) (e : PyExc) :
  present w file name ->
  pdf_name name ->
  header_of file = pdf_magic ->
  Z.of_N (stream_len file) <= MAX_FILE_SIZE ->
  getenv w "AWS_S3_BUCKET" = Some bucket ->
  bucket <> "" ->
  boto3_client w (client_call w) = inl e ->
  serve_upload w =
  (inr (error_response "Failed to initialize S3 client" 500),
   [EvSeek 0 SEEK_SET; EvRead 4; EvSeek 0 SEEK_SET;
    EvSeek 0 SEEK_END; EvTell; EvSeek 0 SEEK_SET;
    EvBoto3Client (client_call w) (Some e);
    EvPrint ("Error creating S3 client: " ++ str_exc e)]).
Proof.
  intros Hp Hext Hmagic Hsize Hbucket Hbne Hclient.
  apply outcome_sound.
  apply (OutNoClient w file name bucket e); assumption.
Qed.

(** When the put of an accepted request raises, the answer is a 500 error
    object, the failed put is the last call, and no URL is asked for.
    The message is [AWS credentials not found] for [NoCredentialsError],
    [S3 bucket does not exist] for a [ClientError] with the code
    [NoSuchBucket], [S3 error: ] and the code for another code, and
    [Upload failed: ] and the message for any other exception. *)
Theorem put_failure_answers (w : World) (file : FileStorage)
    (name bucket : string) (client : S3Client) (e : PyExc) :
  accepted w file name bucket client ->
  upload_fileobj client (put_call w file bucket name) = inl e ->
  exists msg,
    serve_upload w =
    (inr (error_response msg 500),
     (accepted_trace w
      ++ [EvPut (put_call w file bucket name) (inl e)])%list) /\
    (forall m, e = NoCredentialsError m ->
               msg = "AWS credentials not found") /\
    (forall response m err code,
        e = ClientError response m ->
        assoc "Error" response = Some err ->
        assoc "Code" err = Some code ->
        msg = if (code =? "NoSuchBucket")%string
              then "S3 bucket does not exist"
              else "S3 error: " ++ code) /\
    (forall cls m, e = Exception cls m -> msg = "Upload failed: " ++ m).
Proof.
  intros Hacc Hput.
  assert (Hsound : forall msg,
             put_failure e msg ->
             serve_upload w =
             (inr (error_response msg 500),
              (accepted_trace w
               ++ [EvPut (put_call w file bucket name) (inl e)])%list)).
  { intros msg Hf. apply outcome_sound.
    apply (OutPutFailed w file name bucket client e msg); assumption. }
  destruct e as [m|response m|cls m].
  - exists "AWS credentials not found".
    split; [apply Hsound; constructor |].
    repeat split; intros; congruence.
  - destruct (assoc "Error" response) as [err|] eqn:Herr.
    + destruct (assoc "Code" err) as [code|] eqn:Hcode.
      * destruct (String.eqb_spec code "NoSuchBucket") as [->|Hc].
        -- exists "S3 bucket does not exist".
           split; [apply Hsound; eapply FailNoSuchBucket; eauto |].
           repeat split; intros; try discriminate.
           match goal with
           | H : ClientError _ _ = ClientError _ _ |- _ => injection H as <- <-
           end.
           assert (err0 = err) by congruence. subst err0.
           assert (code = "NoSuchBucket") by congruence. now subst code.
        -- exists ("S3 error: " ++ code).
           split; [apply Hsound; eapply FailStore; eauto |].
           repeat split; intros; try discriminate.
           match goal with
           | H : ClientError _ _ = ClientError _ _ |- _ => injection H as <- <-
           end.
           assert (err0 = err) by congruence. subst err0.
           assert (code0 = code) by congruence. subst code0.
           now rewrite (proj2 (String.eqb_neq _ _) Hc).
      * exists "Server error: 'Code'".
        split; [apply Hsound; eapply FailNoCode; eauto |].
        repeat split; intros; try discriminate.
        match goal with
        | H : ClientError _ _ = ClientError _ _ |- _ => injection H as <- <-
        end.
        assert (err0 = err) by congruence. subst err0. congruence.
    + exists "Server error: 'Error'".
      split; [apply Hsound; eapply FailNoError; eauto |].
      repeat split; intros; try discriminate.
      match goal with
      | H : ClientError _ _ = ClientError _ _ |- _ => injection H as <- <-
      end.
      congruence.
  - exists ("Upload failed: " ++ m).
    split; [apply Hsound; constructor |].
    repeat split; intros; congruence.
Qed.

(** A [ClientError] whose response lacks [Error], or whose [Error] lacks
    [Code], is not answered as a store error: the [KeyError] raised while
    reading the code leaves the inner [try] and is answered by the outer
    [except] as [Server error: ] with the quoted key. *)
Theorem codeless_client_error (w : World) (file : FileStorage)
    (name bucket : string) (client : S3Client)
    (response : list (string * list (string * string))) (m : string) :
  accepted w file name bucket client ->
  upload_fileobj client (put_call w file bucket name)
  = inl (ClientError response m) ->
  (assoc "Error" response = None ->
   fst (serve_upload w) = inr (error_response "Server error: 'Error'" 500)) /\
  (forall err,
      assoc "Error" response = Some err -> assoc "Code" err = None ->
      fst (serve_upload w) = inr (error_response "Server error: 'Code'" 500)).
Proof.
  intros Hacc Hput. split.
  - intros Herr.
    rewrite (outcome_sound w _ _
               (OutPutFailed w file name bucket client _ _ Hacc Hput
                  (FailNoError response m Herr))).
    reflexivity.
  - intros err Herr Hcode.
    rewrite (outcome_sound w _ _
               (OutPutFailed w file name bucket client _ _ Hacc Hput
                  (FailNoCode response m err Herr Hcode))).
    reflexivity.
Qed.

End Paths.

(** ** What reaches the store *)

Ltac in_trace H :=
  cbn [In app Spec.sniff_trace Spec.measure_trace Spec.accepted_trace] in H;
  repeat (destruct H as [H|H]; try discriminate); try contradiction.

Section Store.

Import Py Spec Outcomes.

(** Whatever is put, successfully or not, has passed every check: the
    file's declared name has a PDF extension, its stream starts with
    [%PDF], fits the limit and stands at byte 0, the bucket is the
    configured one, the content type is [application/pdf], the key is
    [pdfs/], the identifier, [_] and the sanitised name, and the metadata
    are the sanitised name and the length in decimal. *)
Theorem every_put_is_validated (w : World) (r : Response)
    (tr : list Event) (args : PutCall) (res : PyExc + unit) :
  serve_upload w = (inr r, tr) ->
  In (EvPut args res) tr ->
  exists name,
    present w (Fileobj args) name /\
    pdf_name name /\
    header_of (Fileobj args) = pdf_magic /\
    Z.of_N (stream_len (Fileobj args)) <= MAX_FILE_SIZE /\
    Fileobj_pos args = 0%N /\
    getenv w "AWS_S3_BUCKET" = Some (Bucket args) /\
    Bucket args <> "" /\
    ContentType args = "application/pdf" /\
    Key args = "pdfs/" ++ uuid4 w ++ "_" ++ secure_filename w name /\
    Metadata args =
    [("original_filename", secure_filename w name);
     ("file_size", str_int (Z.of_N (stream_len (Fileobj args))))].
Proof.
  intros Hrun Hin. apply outcome_complete in Hrun.
  destruct Hrun; in_trace Hin;
    injection Hin as <- _;
    match goal with
    | Ha : accepted w ?f ?n ?b ?c |- _ =>
        exists n; pose proof (accepted_present _ _ _ _ _ Ha);
        destruct Ha as (_ & _ & _ & Hx & Hm & Hs & Hb & Hbne & _)
    end;
    cbn [Fileobj Fileobj_pos Bucket ContentType Key Metadata put_call];
    repeat (split; [first [assumption | reflexivity] |]); reflexivity.
Qed.

(** A URL is asked for only after a put that returned, for the bucket and
    key of that put, by [get_object] and for 3600 seconds; the answer is
    then the 200, and its [presigned_url] is the URL returned, or null
    when the call raised. *)
Theorem signing_follows_put (w : World) (r : Response) (tr : list Event)
    (sargs : PresignCall) (sres : PyExc + string) :
  serve_upload w = (inr r, tr) ->
  In (EvPresign sargs sres) tr ->
  exists args,
    In (EvPut args (inr tt)) tr /\
    Params_Bucket sargs = Bucket args /\
    Params_Key sargs = Key args /\
    ClientMethod sargs = "get_object" /\
    ExpiresIn sargs = 3600 /\
    snd r = 200 /\
    field "presigned_url" (fst r)
    = Some match sres with
           | inr url => JStr url
           | inl _ => JNull
           end.
Proof.
  intros Hrun Hin. apply outcome_complete in Hrun.
  destruct Hrun; in_trace Hin; injection Hin as <- <-;
    eexists (put_call w _ _ _);
    (split;
     [cbn [In app sniff_trace measure_trace accepted_trace]; auto 12 |]);
    repeat split.
Qed.

(** One request makes at most one call to [boto3.client], draws at most
    one identifier, and makes at most one put and one signing call: no
    step is retried.  The file object is called six times at most. *)
Theorem no_step_repeated (w : World) (r : Response) (tr : list Event) :
  serve_upload w = (inr r, tr) ->
  (count is_client tr <= 1 /\ count is_uuid tr <= 1 /\
   count is_put tr <= 1 /\ count is_presign tr <= 1 /\
   count is_file_op tr <= 6)%nat.
Proof.
  intros Hrun. apply outcome_complete in Hrun.
  destruct Hrun; cbv [count]; cbn; lia.
Qed.

(** An answer with status 400 has made no call outside the file object:
    no client was built, no identifier drawn, nothing was put or printed. *)
Theorem rejection_stays_local (w : World) (r : Response) (tr : list Event) :
  serve_upload w = (inr r, tr) ->
  snd r = 400 ->
  forallb is_file_op tr = true.
Proof.
  intros Hrun Hst. apply outcome_complete in Hrun.
  destruct Hrun; cbn in Hst; try discriminate; reflexivity.
Qed.

Lemma length_append (a b : string) :
  String.length (a ++ b) = (String.length a + String.length b)%nat.
Proof. induction a as [|c a IH]; simpl; [reflexivity | now rewrite IH]. Qed.

Lemma append_inj_length (a b x y : string) :
  String.length a = String.length b ->
  a ++ x = b ++ y -> a = b /\ x = y.
Proof.
  revert b. induction a as [|c a IH]; intros [|d b] Hlen H;
    simpl in *; try discriminate; [auto |].
  injection H as -> H. injection Hlen as Hlen.
  destruct (IH b Hlen H) as [-> ->]. auto.
Qed.

Lemma append_cancel_r (a b c : string) : a ++ c = b ++ c -> a = b.
Proof.
  intros H. apply (append_inj_length a b c c); [| exact H].
  apply (f_equal String.length) in H. rewrite !length_append in H. lia.
Qed.

(** Two uploads answered 200 with the same [filename] and different
    identifiers carry different keys. *)
Theorem distinct_identifiers_distinct_keys (w1 w2 : World)
    (r1 r2 : Response) (tr1 tr2 : list Event) :
  serve_upload w1 = (inr r1, tr1) ->
  serve_upload w2 = (inr r2, tr2) ->
  snd r1 = 200 -> snd r2 = 200 ->
  field "filename" (fst r1) = field "filename" (fst r2) ->
  uuid4 w1 <> uuid4 w2 ->
  field "s3_key" (fst r1) <> field "s3_key" (fst r2).
Proof.
  intros H1 H2 Hs1 Hs2 Hfn Hid Hkey.
  assert (Hfields : forall fn key url size,
             field "filename" (fst (success_response fn key url size))
             = Some (JStr fn) /\
             field "s3_key" (fst (success_response fn key url size))
             = Some (JStr key)) by (intros; split; reflexivity).
  apply outcome_complete in H1, H2.
  destruct H1; cbn in Hs1; try discriminate;
    destruct H2; cbn in Hs2; try discriminate;
    rewrite !(proj1 (Hfields _ _ _ _)) in Hfn;
    rewrite !(proj2 (Hfields _ _ _ _)) in Hkey;
    injection Hfn as Hfn; injection Hkey as Hkey;
    cbn [Key put_call] in Hkey; rewrite Hfn in Hkey;
    apply append_cancel_r in Hkey; contradiction.
Qed.

End Store.

(** ** Cross-origin set-up and start-up check *)

Section Startup.

Import Py Spec Outcomes.

Lemma is_debug_iff (w : World) :
  is_debug w = true <-> getenv w "FLASK_DEBUG" = Some "1".
Proof.
  unfold is_debug, getenv_default.
  destruct (getenv w "FLASK_DEBUG") as [v|]; [| split; discriminate].
  rewrite String.eqb_eq. split; congruence.
Qed.

(** [CORS] is never opened to every origin: in debug mode the two
    localhost origins are already in the list when the test for an empty
    list is made, so the module always passes the list.  The list is empty
    exactly when debug mode is off and [FRONTEND_URL] is unset or empty. *)
Theorem cors_never_all_origins (w : World) :
  cors_setup w = CorsOrigins (allowed_origins w) /\
  (allowed_origins w = [] <->
   getenv w "FLASK_DEBUG" <> Some "1" /\
   truthy_opt (getenv w "FRONTEND_URL") = false).
Proof.
  split.
  - unfold cors_setup, allowed_origins.
    destruct (is_debug w); [| reflexivity].
    destruct (frontend_url w) as [u|]; [destruct (truthy u) |]; reflexivity.
  - pose proof (is_debug_iff w) as Hd.
    unfold allowed_origins, frontend_url.
    destruct (is_debug w).
    + split.
      * destruct (getenv w "FRONTEND_URL") as [u|];
          [destruct (truthy u) |]; discriminate.
      * intros [H _]. destruct H. now apply Hd.
    + assert (Hoff : getenv w "FLASK_DEBUG" <> Some "1")
        by (intros H; apply Hd in H; discriminate).
      destruct (getenv w "FRONTEND_URL") as [u|]; cbn [truthy_opt];
        [destruct (truthy u) |]; cbn; split; try discriminate; auto.
      intros [_ H]. discriminate.
Qed.

(** The origins handed to [CORS]: the value of [FRONTEND_URL] when it is
    set and not empty, and the two localhost origins when [FLASK_DEBUG] is
    [1]; nothing else. *)
Theorem allowed_origins_spec (w : World) (origin : string) :
  In origin (allowed_origins w) <->
  (getenv w "FRONTEND_URL" = Some origin /\ origin <> "") \/
  (getenv w "FLASK_DEBUG" = Some "1" /\
   (origin = "http://localhost:3000" \/ origin = "http://localhost:5000")).
Proof.
  pose proof (is_debug_iff w) as Hd.
  unfold allowed_origins, frontend_url.
  assert (Hfront : forall u, truthy u = true <-> u <> "").
  { intros u. unfold truthy. rewrite negb_true_iff. apply String.eqb_neq. }
  destruct (is_debug w).
  - assert (Hon : getenv w "FLASK_DEBUG" = Some "1") by now apply Hd.
    destruct (getenv w "FRONTEND_URL") as [u|].
    + destruct (truthy u) eqn:Hu.
      * apply Hfront in Hu. cbn. split.
        -- intros [<-|[<-|[<-|[]]]]; auto.
        -- intros [[H _]|[_ [->| ->]]]; auto. injection H as ->. auto.
      * cbn. split.
        -- intros [<-|[<-|[]]]; auto.
        -- intros [[H Hne]|[_ [->| ->]]]; auto.
           injection H as ->. apply Hfront in Hne. congruence.
    + cbn. split.
      * intros [<-|[<-|[]]]; auto.
      * intros [[H _]|[_ [->| ->]]]; auto. discriminate.
  - assert (Hoff : getenv w "FLASK_DEBUG" <> Some "1")
      by (intros H; apply Hd in H; discriminate).
    destruct (getenv w "FRONTEND_URL") as [u|].
    + destruct (truthy u) eqn:Hu.
      * apply Hfront in Hu. cbn. split.
        -- intros [<-|[]]. auto.
        -- intros [[H _]|[H _]]; [injection H as ->; auto | contradiction].
      * cbn. split; [intros [] |].
        intros [[H Hne]|[H _]]; [| contradiction].
        injection H as ->. apply Hfront in Hne. congruence.
    + cbn. split; [intros [] |].
      intros [[H _]|[H _]]; [discriminate | contradiction].
Qed.

Lemma flags_true_iff (w : World) :
  (exists details,
      field "details" (fst (get_config w)) = Some details /\
      field "aws_access_key" details = Some (JBool true) /\
      field "aws_secret_key" details = Some (JBool true) /\
      field "aws_bucket" details = Some (JBool true)) <->
  truthy_opt (getenv w "AWS_ACCESS_KEY_ID") = true /\
  truthy_opt (getenv w "AWS_SECRET_ACCESS_KEY") = true /\
  truthy_opt (getenv w "AWS_S3_BUCKET") = true.
Proof.
  split.
  - intros (d & Hd & H1 & H2 & H3). cbn in Hd. injection Hd as <-.
    cbn in H1, H2, H3. injection H1 as ->. injection H2 as ->.
    injection H3 as ->. auto.
  - intros (H1 & H2 & H3). eexists. split; [reflexivity |].
    cbn. now rewrite H1, H2, H3.
Qed.

(** The start-up check and [get_config] agree: [main_check] prints nothing
    exactly when the three flags that [get_config] reports are true (a
    variable set to the empty string counts as missing in both);
    otherwise it prints two lines, the first naming the missing variables
    in the order of [required_vars]. *)
Theorem main_check_agrees_with_config (w : World) (st : State) :
  exists st',
    main_check w st = (inr tt, st') /\
    pos st' = pos st /\
    (trace st' = trace st <->
     exists details,
       field "details" (fst (get_config w)) = Some details /\
       field "aws_access_key" details = Some (JBool true) /\
       field "aws_secret_key" details = Some (JBool true) /\
       field "aws_bucket" details = Some (JBool true)) /\
    (trace st' <> trace st ->
     trace st' =
     (trace st ++
      [EvPrint ("Warning: Missing environment variables: "
                ++ join ", " (missing_vars w));
       EvPrint "Set these variables to enable S3 functionality"])%list /\
     forall var,
       In var (missing_vars w) <->
       In var required_vars /\ truthy_opt (getenv w var) = false).
Proof.
  assert (Hneq : forall (l : list Event) a b, (l ++ [a; b])%list <> l).
  { intros l a b H. apply (f_equal (@length Event)) in H.
    rewrite length_app in H. cbn in H. lia. }
  assert (Hmiss : forall var,
             In var (missing_vars w) <->
             In var required_vars /\ truthy_opt (getenv w var) = false).
  { intros var. unfold missing_vars. rewrite filter_In.
    now rewrite negb_true_iff. }
  setoid_rewrite flags_true_iff.
  unfold main_check.
  unfold missing_vars at 1 2 3, required_vars. cbn [filter].
  destruct (truthy_opt (getenv w "AWS_ACCESS_KEY_ID"));
    destruct (truthy_opt (getenv w "AWS_SECRET_ACCESS_KEY"));
    destruct (truthy_opt (getenv w "AWS_S3_BUCKET")); cbn [negb];
    cbv [bind print emit ret]; cbn [pos trace];
    eexists; (split; [reflexivity |]); cbn [pos trace];
    (split; [reflexivity |]); rewrite <- ?app_assoc; cbn [app];
    (split;
     [split;
      [intros H; first [now apply Hneq in H | auto]
      |intros (H1 & H2 & H3); first [discriminate | reflexivity]]
     |intros H;
      first [now destruct H | split; [reflexivity | exact Hmiss]]]).
Qed.

End Startup.

(** ** The further properties at sample requests *)

Section MoreWitnesses.

Import Py Spec Outcomes Samples MoreSamples.

Lemma a_pdf_present (w : World) :
  request_files w = inr [("file", pdf_file "a.pdf" 10)] ->
  present w (pdf_file "a.pdf" 10) "a.pdf".
Proof.
  intros H. unfold present. repeat split; try discriminate.
  now exists [("file", pdf_file "a.pdf" 10)].
Defined.

Lemma a_pdf_accepted (client : S3Client) :
  accepted (world_of (pdf_file "a.pdf" 10) client) (pdf_file "a.pdf" 10)
    "a.pdf" "bkt" client.
Proof.
  unfold accepted. repeat split; try reflexivity; try discriminate.
  - now exists [("file", pdf_file "a.pdf" 10)].
  - now exists "a", "pdf".
Defined.

(** The configured region [US East (Ohio) us-east-2] is reported whole
    and handed over as [us-east-2]. *)
Lemma reported_region_not_normalized_witness :
  no_space "us-east-2" = true /\
  "us-east-2" <> "US East (Ohio) us-east-2" /\
  exists details,
    field "details" (fst (get_config small_pdf)) = Some details /\
    field "aws_region" details = Some (JStr "US East (Ohio) us-east-2").
Proof.
  apply (reported_region_not_normalized small_pdf "US East (Ohio) us-east-2"
           {| service_name := "s3";
              aws_access_key_id := Some "AKIATEST";
              aws_secret_access_key := Some "secret";
              region_name := "us-east-2" |} None);
    try reflexivity.
  cbn. auto.
Defined.

Lemma missing_file_rejected_witness :
  serve_upload empty_form
  = (inr (error_response "No file provided" 400), []).
Proof.
  apply (proj1 (missing_file_rejected empty_form [] eq_refl)). reflexivity.
Defined.

Lemma nameless_part_is_server_error_witness :
  serve_upload nameless =
  (inr (error_response
          "Server error: argument of type 'NoneType' is not iterable" 500),
   []).
Proof.
  apply (nameless_part_is_server_error nameless
           [("file", {| filename := None; stream := pdf_stream;
                        stream_len := 10 |})]
           {| filename := None; stream := pdf_stream; stream_len := 10 |});
    reflexivity.
Defined.

(** A PDF of exactly 50 MiB is not refused for its size. *)
Lemma too_large_iff_witness :
  Z.of_N (stream_len (pdf_file "max.pdf" 52428800)) = MAX_FILE_SIZE /\
  fst (serve_upload at_limit)
  <> inr (error_response "File size exceeds 50MB limit" 400).
Proof.
  split; [reflexivity |]. intros H.
  apply (too_large_iff at_limit (pdf_file "max.pdf" 52428800) "max.pdf")
    in H.
  - vm_compute in H. discriminate.
  - unfold present. split; [| split; [reflexivity | discriminate]].
    now exists [("file", pdf_file "max.pdf" 52428800)].
  - now exists "max", "pdf".
  - reflexivity.
Defined.

Lemma client_init_failed_witness :
  fst (serve_upload no_client)
  = inr (error_response "Failed to initialize S3 client" 500).
Proof.
  rewrite (client_init_failed no_client (pdf_file "a.pdf" 10) "a.pdf" "bkt"
             (Exception "InvalidRegionError" "bad region")).
  - reflexivity.
  - now apply a_pdf_present.
  - now exists "a", "pdf".
  - reflexivity.
  - vm_compute. discriminate.
  - reflexivity.
  - discriminate.
  - reflexivity.
Defined.

Lemma put_failure_answers_witness :
  exists msg,
    serve_upload denied =
    (inr (error_response msg 500),
     (accepted_trace denied
      ++ [EvPut (put_call denied (pdf_file "a.pdf" 10) "bkt" "a.pdf")
            (inl (ClientError [("Error", [("Code", "AccessDenied")])]
                    "An error occurred (AccessDenied)"))])%list) /\
    msg = "S3 error: AccessDenied".
Proof.
  destruct (put_failure_answers denied (pdf_file "a.pdf" 10) "a.pdf" "bkt"
              denied_client _ (a_pdf_accepted denied_client) eq_refl)
    as (msg & Hrun & _ & Hcode & _).
  exists msg. split; [exact Hrun |].
  apply (Hcode _ _ [("Code", "AccessDenied")] "AccessDenied" eq_refl);
    reflexivity.
Defined.

Lemma codeless_client_error_witness :
  fst (serve_upload codeless)
  = inr (error_response "Server error: 'Error'" 500).
Proof.
  apply (proj1 (codeless_client_error codeless (pdf_file "a.pdf" 10) "a.pdf"
                  "bkt" codeless_client [] "An error occurred"
                  (a_pdf_accepted codeless_client) eq_refl)).
  reflexivity.
Defined.

Lemma every_put_is_validated_witness :
  exists name,
    present small_pdf (pdf_file "a.pdf" 10) name /\
    pdf_name name /\
    header_of (pdf_file "a.pdf" 10) = pdf_magic /\
    Z.of_N 10 <= MAX_FILE_SIZE /\
    0%N = 0%N /\
    getenv small_pdf "AWS_S3_BUCKET" = Some "bkt" /\
    "bkt" <> "" /\
    "application/pdf" = "application/pdf" /\
    "pdfs/1b4e28ba-2fa1-41d2-883f-0016d3cca427_a.pdf"
    = "pdfs/" ++ uuid4 small_pdf ++ "_" ++ secure_filename small_pdf name /\
    [("original_filename", "a.pdf"); ("file_size", "10")]
    = [("original_filename", secure_filename small_pdf name);
       ("file_size", str_int (Z.of_N 10))].
Proof.
  apply (every_put_is_validated small_pdf _ _
           (put_call small_pdf (pdf_file "a.pdf" 10) "bkt" "a.pdf")
           (inr tt) eq_refl).
  cbn. auto 12.
Defined.

Lemma signing_follows_put_witness :
  exists args,
    In (EvPut args (inr tt)) (snd (serve_upload unsigned)) /\
    "bkt" = Bucket args /\
    "pdfs/1b4e28ba-2fa1-41d2-883f-0016d3cca427_a.pdf" = Key args /\
    "get_object" = "get_object" /\
    3600 = 3600 /\
    200 = 200 /\
    field "presigned_url"
      (fst (success_response "a.pdf"
              "pdfs/1b4e28ba-2fa1-41d2-883f-0016d3cca427_a.pdf" JNull 10))
    = Some JNull.
Proof.
  apply (signing_follows_put unsigned _ _
           (presign_call unsigned "bkt" "a.pdf")
           (inl (Exception "ValueError" "no signer")) eq_refl).
  cbn. auto 12.
Defined.

Lemma no_step_repeated_witness :
  (count is_client (snd (serve_upload small_pdf)) <= 1 /\
   count is_uuid (snd (serve_upload small_pdf)) <= 1 /\
   count is_put (snd (serve_upload small_pdf)) <= 1 /\
   count is_presign (snd (serve_upload small_pdf)) <= 1 /\
   count is_file_op (snd (serve_upload small_pdf)) <= 6)%nat.
Proof. exact (no_step_repeated small_pdf _ _ eq_refl). Defined.

Lemma rejection_stays_local_witness :
  forallb is_file_op (snd (serve_upload spoofed)) = true.
Proof.
  exact (rejection_stays_local spoofed _ _ eq_refl eq_refl).
Defined.

Lemma distinct_identifiers_distinct_keys_witness :
  field "s3_key"
    (fst (success_response "a.pdf"
            "pdfs/1b4e28ba-2fa1-41d2-883f-0016d3cca427_a.pdf"
            (JStr "https://s3.test/pdfs/1b4e28ba-2fa1-41d2-883f-0016d3cca427_a.pdf")
            10))
  <> field "s3_key"
       (fst (success_response "a.pdf"
               "pdfs/9f8b6c1e-0d2a-4c57-9e41-7a3b5d6f8c90_a.pdf"
               (JStr "https://s3.test/pdfs/9f8b6c1e-0d2a-4c57-9e41-7a3b5d6f8c90_a.pdf")
               10)).
Proof.
  apply (distinct_identifiers_distinct_keys small_pdf small_pdf_again
           _ _ _ _ eq_refl eq_refl eq_refl eq_refl eq_refl).
  discriminate.
Defined.

(** Debug mode without a front-end URL still passes a list to [CORS]. *)
Example dev_env_cors :
  cors_setup dev_env
  = CorsOrigins ["http://localhost:3000"; "http://localhost:5000"].
Proof. reflexivity. Qed.

(** An empty [AWS_S3_BUCKET] stops a valid upload before any client
    work. *)
Example prod_env_no_bucket :
  serve_upload prod_env
  = (inr (error_response "S3 bucket not configured" 500),
     [EvSeek 0 SEEK_SET; EvRead 4; EvSeek 0 SEEK_SET;
      EvSeek 0 SEEK_END; EvTell; EvSeek 0 SEEK_SET]).
Proof. reflexivity. Qed.

End MoreWitnesses.
